(** * DORA metrics engine of JIRA-tooling: a shallow embedding

    The development follows [DORA/dora_metrics.py] (class [DORAMetrics]) and
    [DORA/dora_metrics_integrated.py] (class [DORAMetricsIntegrated]).

    Modelling choices.
    - Issue records are the values [json.load] produces: [json], with Python
      dicts as [gmap string json].
    - Python [int] is [Z]; Python [float] is modelled by exact rationals
      ([Qc]), so [round(x, 1)] is round-half-even to one decimal on the exact
      value.  The interpreter computes in binary64, and the two can part
      where the exact value is a rounding tie: module [Binary64] gives the
      change failure rate calculator in binary64 itself, on the kernel's
      primitive floats.
    - A Python exception is a value [Raise e] of [result]; [try/except
      Exception: continue] blocks are the [option] monad.
    - [dateutil.parser.parse] is not part of the repository: the calculators
      take it as a parameter [parser_parse : string -> option datetime]
      ([None] when it raises).  The parameter is the parser as it behaves
      during one run: [dateutil] fills the fields a string leaves out from
      the current date, so two runs on different days come with two
      parsers ([clock_parse] is one that reads the clock).
    - [print] calls are dropped; [datetime.now()] in the aggregator is an
      explicit argument. *)

From Stdlib Require Import QArith Qcanon ZArith Lia Lqa Floats.
From stdpp Require Import gmap strings list fin_maps sorting numbers pretty.

Local Open Scope Qc_scope.

(** ** Python values *)

#[warnings="-register-all"]
Inductive json : Type :=
  | JNull
  | JBool (b : bool)
  | JInt (z : Z)
  | JFloat (q : Qc)
  | JStr (s : string)
  | JList (l : list json)
  | JDict (m : gmap string json).

Abbreviation pydict := (gmap string json).

Inductive exn : Type := AttributeError | TypeError | KeyError.

Inductive result (A : Type) : Type :=
  | Ok (a : A)
  | Raise (e : exn).
Arguments Ok {A} a.
Arguments Raise {A} e.

#[global] Instance result_ret : MRet result := λ A a, Ok a.
#[global] Instance result_bind : MBind result := λ A B f m,
  match m with Ok a => f a | Raise e => Raise e end.
#[global] Instance result_fmap : FMap result := λ A B f m,
  match m with Ok a => Ok (f a) | Raise e => Raise e end.

(** Numbers of the rational model. *)
#[global] Instance Qc_inhabited : Inhabited Qc := populate 0.
Definition qz (z : Z) : Qc := Q2Qc (inject_Z z).
Definition qfrac (n : Z) (d : positive) : Qc := Q2Qc (n # d).

(** [bool(v)] *)
Definition truthy (v : json) : bool :=
  match v with
  | JNull => false
  | JBool b => b
  | JInt z => negb (z =? 0)%Z
  | JFloat q => negb (bool_decide (q = 0))
  | JStr s => negb (String.eqb s "")
  | JList l => match l with [] => false | _ => true end
  | JDict m => negb (size m =? 0)%nat
  end.

(** [o.get(key, default)]: only a dict has the method. *)
Definition py_get (o : json) (key : string) (dflt : json) : result json :=
  match o with
  | JDict m => Ok (default dflt (m !! key))
  | _ => Raise AttributeError
  end.

(** [d[key]] on a dict built by the calculators. *)
Definition py_item (d : pydict) (key : string) : result json :=
  match d !! key with
  | Some v => Ok v
  | None => Raise KeyError
  end.

(** [v[key]] with a string key: only a dict can be indexed so. *)
Definition py_getitem (v : json) (key : string) : result json :=
  match v with
  | JDict m => py_item m key
  | _ => Raise TypeError
  end.

(** The numeric reading of a value used as [value: float]. *)
Definition py_number (v : json) : result Qc :=
  match v with
  | JInt z => Ok (qz z)
  | JFloat q => Ok q
  | JBool b => Ok (if b then 1 else 0)
  | _ => Raise TypeError
  end.

(** [v == s] for a string literal [s]. *)
Definition py_eq_str (v : json) (s : string) : bool :=
  match v with
  | JStr t => String.eqb t s
  | _ => false
  end.

(** [v in [s1, ..., sn]] for string literals. *)
Definition py_in_strs (v : json) (l : list string) : bool :=
  existsb (py_eq_str v) l.

(** ** [round(x, 1)] on the exact value: ties go to the even tenth *)

Definition round_half_even (x : Qc) : Z :=
  let n := Qnum x in
  let d := Z.pos (Qden x) in
  let q := (n / d)%Z in
  let r := (n mod d)%Z in
  if (2 * r <? d)%Z then q
  else if (d <? 2 * r)%Z then (q + 1)%Z
  else if Z.even q then q else (q + 1)%Z.

Definition round1 (x : Qc) : Qc := qfrac (round_half_even (x * qz 10)) 10.

(** [round(v, 1)] keeps an [int] an [int]. *)
Definition py_round1 (v : json) : json :=
  match v with
  | JFloat q => JFloat (round1 q)
  | _ => v
  end.

(** ** [datetime] values

    [dt_wall] is the wall-clock reading in microseconds since the epoch,
    [dt_utcoffset] the offset of an aware datetime ([None] when naive). *)

Record datetime : Type := mkDatetime {
  dt_wall : Z;
  dt_utcoffset : option Z
}.

Definition us_per_second : Z := 1000000.
Definition us_per_day : Z := 86400 * us_per_second.

(** [d.date()], as the ordinal of the calendar day. *)
Definition dt_date (d : datetime) : Z := (dt_wall d / us_per_day)%Z.

(** [a - b] in microseconds; mixing aware and naive raises [TypeError]. *)
Definition dt_sub (a b : datetime) : option Z :=
  match dt_utcoffset a, dt_utcoffset b with
  | Some oa, Some ob => Some ((dt_wall a - oa) - (dt_wall b - ob))%Z
  | None, None => Some (dt_wall a - dt_wall b)%Z
  | _, _ => None
  end.

(** [delta.total_seconds()] *)
Definition total_seconds (delta : Z) : Qc := qz delta / qz us_per_second.

(** ** [statistics] and the built-ins on non-empty float lists *)

Definition qsum (l : list Qc) : Qc := foldr Qcplus 0 l.

Definition mean (l : list Qc) : Qc := qsum l / qz (Z.of_nat (length l)).

Definition qmin (a b : Qc) : Qc := if bool_decide (b < a) then b else a.
Definition qmax (a b : Qc) : Qc := if bool_decide (a < b) then b else a.

Definition py_min (l : list Qc) : Qc :=
  match l with [] => 0 | x :: l' => fold_left qmin l' x end.
Definition py_max (l : list Qc) : Qc :=
  match l with [] => 0 | x :: l' => fold_left qmax l' x end.

(** [statistics.median]: sort, then the middle element or the mean of the
    two middle ones. *)
Definition median (l : list Qc) : Qc :=
  let data := merge_sort Qcle l in
  let n := length data in
  if (n mod 2 =? 1)%nat then data !!! (n / 2)%nat
  else
    let i := (n / 2)%nat in
    (data !!! (i - 1)%nat + data !!! i) / qz 2.

(** ** The benchmark table and the classifier (identical in both classes) *)

Definition benchmarks : gmap string (gmap string Qc) :=
  {[ "lead_time_days" := {[ "elite" := qz 1; "high" := qz 7; "medium" := qz 30 ]};
     "deployments_per_week" := {[ "elite" := qz 7; "high" := qz 1; "medium" := qfrac 2 10 ]};
     "mttr_hours" := {[ "elite" := qz 1; "high" := qz 24; "medium" := qz 168 ]};
     "failure_rate" := {[ "elite" := qz 5; "high" := qz 15; "medium" := qz 30 ]} ]}.

(** ** [class DORAMetrics] *)

Module DORAMetrics.
Section Calculators.

Variable parser_parse : string → option datetime.

(** [parser.parse(v)]: any argument that is not a string raises. *)
Definition parse_arg (v : json) : option datetime :=
  match v with
  | JStr s => parser_parse s
  | _ => None
  end.

(** [issue.get(key) or issue.get("fields", {}).get(key)] *)
Definition get_either (issue : json) (key : string) : result json :=
  top ← py_get issue key JNull;
  if truthy top then mret top
  else
    fields ← py_get issue "fields" (JDict ∅);
    py_get fields key JNull.

(** The body of the [try] block of the lead-time and MTTR loops, with the
    divisor of [total_seconds()] as [unit]; [None] is [continue]. *)
Definition try_elapsed (unit : Z) (created resolved : json) : option Qc :=
  created_date ← parse_arg created;
  resolved_date ← parse_arg resolved;
  delta ← dt_sub resolved_date created_date;
  Some (total_seconds delta / qz unit).

(** The [for issue in issues] loop shared by lines 48-60 and 109-121. *)
Fixpoint elapsed_loop (unit : Z) (issues : list json) (acc : list Qc)
    : result (list Qc) :=
  match issues with
  | [] => mret acc
  | issue :: rest =>
      created ← get_either issue "created";
      resolved ← get_either issue "resolutiondate";
      if truthy created && truthy resolved then
        match try_elapsed unit created resolved with
        | Some t => elapsed_loop unit rest (acc ++ [t])
        | None => elapsed_loop unit rest acc
        end
      else elapsed_loop unit rest acc
  end.

Definition calculate_lead_time (issues : list json) : result pydict :=
  lead_times ← elapsed_loop (24 * 3600) issues [];
  match lead_times with
  | [] =>
      mret {[ "average" := JInt 0; "median" := JInt 0; "min" := JInt 0;
              "max" := JInt 0; "count" := JInt 0 ]}
  | _ =>
      mret {[ "average" := JFloat (round1 (mean lead_times));
              "median" := JFloat (round1 (median lead_times));
              "min" := JFloat (round1 (py_min lead_times));
              "max" := JFloat (round1 (py_max lead_times));
              "count" := JInt (Z.of_nat (length lead_times)) ]}
  end.

Fixpoint resolution_loop (issues : list json) (acc : list Z)
    : result (list Z) :=
  match issues with
  | [] => mret acc
  | issue :: rest =>
      resolved ← get_either issue "resolutiondate";
      if truthy resolved then
        match parse_arg resolved with
        | Some resolved_date => resolution_loop rest (acc ++ [dt_date resolved_date])
        | None => resolution_loop rest acc
        end
      else resolution_loop rest acc
  end.

Definition calculate_deployment_frequency (issues : list json) : result pydict :=
  resolution_dates ← resolution_loop issues [];
  match resolution_dates with
  | [] => mret {[ "frequency" := JStr "No data"; "deployments_per_week" := JInt 0 ]}
  | _ =>
      let unique_days := size (list_to_set resolution_dates : gset Z) in
      let days_analyzed := 90%Z in
      let deployments_per_week :=
        round1 (qz (Z.of_nat unique_days) / qz days_analyzed * qz 7) in
      mret {[ "frequency" := JStr (pretty unique_days +:+ " deployment days in 90 days");
              "deployments_per_week" := JFloat deployments_per_week;
              "total_deployments" := JInt (Z.of_nat unique_days) ]}
  end.

(** The condition of the [bug_issues] comprehensions. *)
Definition is_bug (issue : json) : result bool :=
  issuetype ← py_get issue "issuetype" (JDict ∅);
  name ← py_get issuetype "name" JNull;
  if py_eq_str name "Bug" then mret true
  else
    fields ← py_get issue "fields" (JDict ∅);
    issuetype ← py_get fields "issuetype" (JDict ∅);
    name ← py_get issuetype "name" JNull;
    mret (py_eq_str name "Bug").

(** The condition of the [critical_bugs] comprehension. *)
Definition is_critical (issue : json) : result bool :=
  priority ← py_get issue "priority" (JDict ∅);
  name ← py_get priority "name" JNull;
  if py_in_strs name ["Highest"; "High"] then mret true
  else
    fields ← py_get issue "fields" (JDict ∅);
    priority ← py_get fields "priority" (JDict ∅);
    name ← py_get priority "name" JNull;
    mret (py_in_strs name ["Highest"; "High"]).

(** [[x for x in l if cond(x)]] with a condition that may raise. *)
Fixpoint comprehension (cond : json → result bool) (l : list json)
    : result (list json) :=
  match l with
  | [] => mret []
  | x :: rest =>
      b ← cond x;
      kept ← comprehension cond rest;
      mret (if (b : bool) then x :: kept else kept)
  end.

Definition calculate_mttr (issues : list json) : result pydict :=
  bug_issues ← comprehension is_bug issues;
  recovery_times ← elapsed_loop 3600 bug_issues [];
  match recovery_times with
  | [] => mret {[ "average_hours" := JInt 0; "average_days" := JInt 0; "count" := JInt 0 ]}
  | _ =>
      let avg_hours := mean recovery_times in
      let avg_days := avg_hours / qz 24 in
      mret {[ "average_hours" := JFloat (round1 avg_hours);
              "average_days" := JFloat (round1 avg_days);
              "count" := JInt (Z.of_nat (length recovery_times)) ]}
  end.

(** The rates are taken on exact quotients here;
    [Binary64.calculate_change_failure_rate] below has them in the
    arithmetic of the interpreter. *)
Definition calculate_change_failure_rate (issues : list json) : result pydict :=
  let total_issues := length issues in
  bug_issues ← comprehension is_bug issues;
  let bug_count := length bug_issues in
  let failure_rate :=
    if (0 <? total_issues)%nat
    then JFloat (qz (Z.of_nat bug_count) / qz (Z.of_nat total_issues) * qz 100)
    else JInt 0 in
  critical_bugs ← comprehension is_critical bug_issues;
  mret {[ "total_issues" := JInt (Z.of_nat total_issues);
          "bug_issues" := JInt (Z.of_nat bug_count);
          "critical_bugs" := JInt (Z.of_nat (length critical_bugs));
          "failure_rate_percent" := py_round1 failure_rate;
          "critical_failure_rate_percent" :=
            if (0 <? total_issues)%nat
            then JFloat (round1 (qz (Z.of_nat (length critical_bugs))
                                 / qz (Z.of_nat total_issues) * qz 100))
            else JInt 0 ]}.

Definition get_performance_level (metric : string) (value : Qc) : string :=
  match benchmarks !! metric with
  | None => "Unknown"
  | Some row =>
      if bool_decide (value ≤ row !!! "elite") then "Elite"
      else if bool_decide (value ≤ row !!! "high") then "High"
      else if bool_decide (value ≤ row !!! "medium") then "Medium"
      else "Low"
  end.

(** [analyze_dora_metrics], with [self.issues_data] and the formatted
    [datetime.now()] as arguments. *)
Definition analyze_dora_metrics (issues_data : list json) (now : string)
    : result pydict :=
  let issues := issues_data in
  match issues with
  | [] => mret (∅ : pydict)
  | _ =>
      lead_time ← calculate_lead_time issues;
      deployment_freq ← calculate_deployment_frequency issues;
      mttr ← calculate_mttr issues;
      failure_rate ← calculate_change_failure_rate issues;
      lead_time_level ←
        get_performance_level "lead_time_days" <$> (py_item lead_time "average" ≫= py_number);
      deployment_level ←
        get_performance_level "deployments_per_week"
          <$> (py_item deployment_freq "deployments_per_week" ≫= py_number);
      mttr_level ←
        get_performance_level "mttr_hours" <$> (py_item mttr "average_hours" ≫= py_number);
      failure_level ←
        get_performance_level "failure_rate"
          <$> (py_item failure_rate "failure_rate_percent" ≫= py_number);
      mret {[ "lead_time" := JDict (<["performance_level" := JStr lead_time_level]> lead_time);
              "deployment_frequency" :=
                JDict (<["performance_level" := JStr deployment_level]> deployment_freq);
              "mttr" := JDict (<["performance_level" := JStr mttr_level]> mttr);
              "change_failure_rate" :=
                JDict (<["performance_level" := JStr failure_level]> failure_rate);
              "analysis_date" := JStr now;
              "total_issues_analyzed" := JInt (Z.of_nat (length issues));
              "data_source" := JStr "Real JIRA Data (MCP)" ]}
  end.

(** The two helpers nested in [print_report]. *)
Definition get_status_icon (level : json) : string :=
  if py_eq_str level "Elite" then "🤩"
  else if py_eq_str level "High" then "✅"
  else if py_eq_str level "Medium" then "⚠️"
  else "🚨".

Definition get_status_text (level : json) : string :=
  if py_eq_str level "Elite" then "Excellent"
  else if py_eq_str level "High" then "Good"
  else if py_eq_str level "Medium" then "Needs Improvement"
  else "Needs Improvement".

(** The lines [print_report] writes under its RECOMMENDATIONS header (lines
    289-297), from the four summaries [lt], [df], [mttr] and [cfr] it has
    taken out of [metrics]. *)
Definition recommendations (lt df mttr cfr : json) : result (list string) :=
  lt_level ← py_getitem lt "performance_level";
  let out1 :=
    if py_in_strs lt_level ["Low"; "Medium"]
    then ["   • Reduce lead time by implementing smaller, more frequent releases"]
    else [] in
  df_level ← py_getitem df "performance_level";
  let out2 :=
    if py_in_strs df_level ["Low"; "Medium"]
    then out1 ++ ["   • Increase deployment frequency to daily or multiple times per day"]
    else out1 in
  mttr_level ← py_getitem mttr "performance_level";
  let out3 :=
    if py_in_strs mttr_level ["Low"; "Medium"]
    then out2 ++ ["   • Improve incident response and monitoring capabilities"]
    else out2 in
  cfr_level ← py_getitem cfr "performance_level";
  mret (if py_in_strs cfr_level ["Low"; "Medium"]
        then out3 ++ ["   • Enhance testing coverage and implement better quality gates"]
        else out3).

End Calculators.
End DORAMetrics.

(** ** [class DORAMetricsIntegrated] *)

Module DORAMetricsIntegrated.
Section Calculators.

Variable parser_parse : string → option datetime.

Definition parse_arg (v : json) : option datetime :=
  match v with
  | JStr s => parser_parse s
  | _ => None
  end.

(** [issue.get("fields", {}).get(key)] *)
Definition get_nested (issue : json) (key : string) : result json :=
  fields ← py_get issue "fields" (JDict ∅);
  py_get fields key JNull.

Definition try_elapsed (unit : Z) (created resolved : json) : option Qc :=
  created_date ← parse_arg created;
  resolved_date ← parse_arg resolved;
  delta ← dt_sub resolved_date created_date;
  Some (total_seconds delta / qz unit).

Fixpoint elapsed_loop (unit : Z) (issues : list json) (acc : list Qc)
    : result (list Qc) :=
  match issues with
  | [] => mret acc
  | issue :: rest =>
      created ← get_nested issue "created";
      resolved ← get_nested issue "resolutiondate";
      if truthy created && truthy resolved then
        match try_elapsed unit created resolved with
        | Some t => elapsed_loop unit rest (acc ++ [t])
        | None => elapsed_loop unit rest acc
        end
      else elapsed_loop unit rest acc
  end.

Definition calculate_lead_time (issues : list json) : result pydict :=
  lead_times ← elapsed_loop (24 * 3600) issues [];
  match lead_times with
  | [] =>
      mret {[ "average" := JInt 0; "median" := JInt 0; "min" := JInt 0;
              "max" := JInt 0; "count" := JInt 0 ]}
  | _ =>
      mret {[ "average" := JFloat (round1 (mean lead_times));
              "median" := JFloat (round1 (median lead_times));
              "min" := JFloat (round1 (py_min lead_times));
              "max" := JFloat (round1 (py_max lead_times));
              "count" := JInt (Z.of_nat (length lead_times)) ]}
  end.

Fixpoint resolution_loop (issues : list json) (acc : list Z)
    : result (list Z) :=
  match issues with
  | [] => mret acc
  | issue :: rest =>
      resolved ← get_nested issue "resolutiondate";
      if truthy resolved then
        match parse_arg resolved with
        | Some resolved_date => resolution_loop rest (acc ++ [dt_date resolved_date])
        | None => resolution_loop rest acc
        end
      else resolution_loop rest acc
  end.

Definition calculate_deployment_frequency (issues : list json) : result pydict :=
  resolution_dates ← resolution_loop issues [];
  match resolution_dates with
  | [] => mret {[ "frequency" := JStr "No data"; "deployments_per_week" := JInt 0 ]}
  | _ =>
      let unique_days := size (list_to_set resolution_dates : gset Z) in
      let days_analyzed := 90%Z in
      let deployments_per_week :=
        round1 (qz (Z.of_nat unique_days) / qz days_analyzed * qz 7) in
      mret {[ "frequency" := JStr (pretty unique_days +:+ " deployment days in 90 days");
              "deployments_per_week" := JFloat deployments_per_week;
              "total_deployments" := JInt (Z.of_nat unique_days) ]}
  end.

Definition is_bug (issue : json) : result bool :=
  fields ← py_get issue "fields" (JDict ∅);
  issuetype ← py_get fields "issuetype" (JDict ∅);
  name ← py_get issuetype "name" JNull;
  mret (py_eq_str name "Bug").

Definition is_critical (issue : json) : result bool :=
  fields ← py_get issue "fields" (JDict ∅);
  priority ← py_get fields "priority" (JDict ∅);
  name ← py_get priority "name" JNull;
  mret (py_in_strs name ["Highest"; "High"]).

Fixpoint comprehension (cond : json → result bool) (l : list json)
    : result (list json) :=
  match l with
  | [] => mret []
  | x :: rest =>
      b ← cond x;
      kept ← comprehension cond rest;
      mret (if (b : bool) then x :: kept else kept)
  end.

Definition calculate_mttr (issues : list json) : result pydict :=
  bug_issues ← comprehension is_bug issues;
  recovery_times ← elapsed_loop 3600 bug_issues [];
  match recovery_times with
  | [] => mret {[ "average_hours" := JInt 0; "average_days" := JInt 0; "count" := JInt 0 ]}
  | _ =>
      let avg_hours := mean recovery_times in
      let avg_days := avg_hours / qz 24 in
      mret {[ "average_hours" := JFloat (round1 avg_hours);
              "average_days" := JFloat (round1 avg_days);
              "count" := JInt (Z.of_nat (length recovery_times)) ]}
  end.

Definition calculate_change_failure_rate (issues : list json) : result pydict :=
  let total_issues := length issues in
  bug_issues ← comprehension is_bug issues;
  let bug_count := length bug_issues in
  let failure_rate :=
    if (0 <? total_issues)%nat
    then JFloat (qz (Z.of_nat bug_count) / qz (Z.of_nat total_issues) * qz 100)
    else JInt 0 in
  critical_bugs ← comprehension is_critical bug_issues;
  mret {[ "total_issues" := JInt (Z.of_nat total_issues);
          "bug_issues" := JInt (Z.of_nat bug_count);
          "critical_bugs" := JInt (Z.of_nat (length critical_bugs));
          "failure_rate_percent" := py_round1 failure_rate;
          "critical_failure_rate_percent" :=
            if (0 <? total_issues)%nat
            then JFloat (round1 (qz (Z.of_nat (length critical_bugs))
                                 / qz (Z.of_nat total_issues) * qz 100))
            else JInt 0 ]}.

Definition get_performance_level (metric : string) (value : Qc) : string :=
  match benchmarks !! metric with
  | None => "Unknown"
  | Some row =>
      if bool_decide (value ≤ row !!! "elite") then "Elite"
      else if bool_decide (value ≤ row !!! "high") then "High"
      else if bool_decide (value ≤ row !!! "medium") then "Medium"
      else "Low"
  end.

(** One round of the random draws of [generate_sample_data_for_project]:
    the results of [random.choices], [random.choice] and [random.randint],
    and the reading of [datetime.now()] (wall-clock microseconds). *)
Record draw : Type := mkDraw {
  d_issue_type : string;
  d_priority : string;
  d_status : string;
  d_summary : string;
  d_now : Z;
  d_age_days : Z;
  d_lead_time_hours : Z
}.

(** [strftime] formats a naive datetime with ["%Y-%m-%dT%H:%M:%S.%f"]; it
    belongs to the standard library and is an argument. *)
Definition timestamp_str (strftime : Z → string) (t : Z) : string :=
  let s := strftime t in
  String.substring 0 (String.length s - 3) s +:+ "+0200".

(** The body of the [for i in range(num_issues)] loop. *)
Definition generate_issue (strftime : Z → string) (project_key : string)
    (i : nat) (d : draw) : json :=
  let issue_type := d_issue_type d in
  let priority := d_priority d in
  let status := d_status d in
  let summary := d_summary d in
  let created_date := (d_now d - d_age_days d * us_per_day)%Z in
  let resolution_date :=
    if existsb (String.eqb status) ["Done"; "Discarded"; "Refined"]
    then Some (created_date + d_lead_time_hours d * 3600 * us_per_second)%Z
    else None in
  let created_str := timestamp_str strftime created_date in
  let resolution_str := timestamp_str strftime <$> resolution_date in
  let fields : pydict :=
    {[ "summary" := JStr summary;
       "issuetype" := JDict {[ "name" := JStr issue_type ]};
       "created" := JStr created_str;
       "priority" := JDict {[ "name" := JStr priority ]};
       "status" := JDict {[ "name" := JStr status ]} ]} in
  let fields :=
    match resolution_str with
    | Some r => if truthy (JStr r) then <["resolutiondate" := JStr r]> fields else fields
    | None => fields
    end in
  JDict {[ "key" := JStr (project_key +:+ "-" +:+ pretty (1000 + i)%nat);
           "fields" := JDict fields ]}.

Fixpoint generate_loop (strftime : Z → string) (project_key : string)
    (i : nat) (draws : list draw) (issues : list json) : list json :=
  match draws with
  | [] => issues
  | d :: rest =>
      generate_loop strftime project_key (S i) rest
        (issues ++ [generate_issue strftime project_key i d])
  end.

(** [generate_sample_data_for_project]: [num_issues] is the number of
    rounds drawn. *)
Definition generate_sample_data_for_project (strftime : Z → string)
    (project_key : string) (draws : list draw) : list json :=
  generate_loop strftime project_key 0 draws [].

(** [analyze_dora_metrics]: [get_issues_data] ends in the generator. *)
Definition analyze_dora_metrics (strftime : Z → string) (project_key : string)
    (draws : list draw) (now : string) : result pydict :=
  let issues := generate_sample_data_for_project strftime project_key draws in
  lead_time ← calculate_lead_time issues;
  deployment_freq ← calculate_deployment_frequency issues;
  mttr ← calculate_mttr issues;
  failure_rate ← calculate_change_failure_rate issues;
  lead_time_level ←
    get_performance_level "lead_time_days" <$> (py_item lead_time "average" ≫= py_number);
  deployment_level ←
    get_performance_level "deployments_per_week"
      <$> (py_item deployment_freq "deployments_per_week" ≫= py_number);
  mttr_level ←
    get_performance_level "mttr_hours" <$> (py_item mttr "average_hours" ≫= py_number);
  failure_level ←
    get_performance_level "failure_rate"
      <$> (py_item failure_rate "failure_rate_percent" ≫= py_number);
  mret {[ "lead_time" := JDict (<["performance_level" := JStr lead_time_level]> lead_time);
          "deployment_frequency" :=
            JDict (<["performance_level" := JStr deployment_level]> deployment_freq);
          "mttr" := JDict (<["performance_level" := JStr mttr_level]> mttr);
          "change_failure_rate" :=
            JDict (<["performance_level" := JStr failure_level]> failure_rate);
          "analysis_date" := JStr now;
          "total_issues_analyzed" := JInt (Z.of_nat (length issues));
          "data_source" := JStr "Real MCP Data" ]}.

End Calculators.
End DORAMetricsIntegrated.

(** ** Sample records

    [sample_parse] reads the four timestamps the sample records use (with
    the value [dateutil] gives them) and rejects every other string. *)

Definition utc_midnight (day : Z) : datetime :=
  mkDatetime (day * us_per_day) (Some 0%Z).

Definition sample_parse (s : string) : option datetime :=
  if String.eqb s "2024-01-01T00:00:00.000+0000" then Some (utc_midnight 19723)
  else if String.eqb s "2024-01-02T00:00:00.000+0000" then Some (utc_midnight 19724)
  else if String.eqb s "2024-01-03T00:00:00.000+0000" then Some (utc_midnight 19725)
  else if String.eqb s "2024-01-03T12:00:00.000+0000"
       then Some (mkDatetime (19725 * us_per_day + 12 * 3600 * us_per_second) (Some 0%Z))
  else None.

Definition name_obj (s : string) : json := JDict {[ "name" := JStr s ]}.

(** A record in the nested shape of [generate_sample_data_for_project]. *)
Definition nested_issue (key type priority created : string) (resolved : option string) : json :=
  let fields : pydict :=
    {[ "issuetype" := name_obj type; "priority" := name_obj priority;
       "created" := JStr created ]} in
  JDict {[ "key" := JStr key;
           "fields" := JDict (match resolved with
                              | Some r => <["resolutiondate" := JStr r]> fields
                              | None => fields
                              end) ]}.

Definition t0101 : string := "2024-01-01T00:00:00.000+0000".
Definition t0102 : string := "2024-01-02T00:00:00.000+0000".
Definition t0103 : string := "2024-01-03T00:00:00.000+0000".
Definition t0103n : string := "2024-01-03T12:00:00.000+0000".

(** The scenario of the specification: two bugs (one resolved after two
    days with priority High, one unresolved) and three resolved non-bugs. *)
Definition scenario : list json :=
  [ nested_issue "P-1" "Bug" "High" t0101 (Some t0103);
    nested_issue "P-2" "Bug" "Low" t0101 None;
    nested_issue "P-3" "Story" "Medium" t0101 (Some t0102);
    nested_issue "P-4" "Task" "Medium" t0102 (Some t0103);
    nested_issue "P-5" "Story" "High" t0101 (Some t0103n) ].

(** A resolved bug whose priority is unset: the tracker sends [null]. *)
Definition unprioritized_bug : json :=
  JDict {[ "key" := JStr "P-9";
           "fields" := JDict {[ "issuetype" := name_obj "Bug"; "priority" := JNull;
                                "created" := JStr t0101;
                                "resolutiondate" := JStr t0103 ]} ]}.

(** A record whose issue type is a bare string. *)
Definition string_typed_issue : json :=
  JDict {[ "key" := JStr "P-10"; "issuetype" := JStr "Bug"; "created" := JStr t0101 ]}.

(** A record typed Story at top level and Bug under [fields]. *)
Definition mislabeled_issue : json :=
  JDict {[ "key" := JStr "P-11"; "issuetype" := name_obj "Story";
           "fields" := JDict {[ "issuetype" := name_obj "Bug" ]} ]}.

(** A record whose top-level created value does not parse while the nested
    one does. *)
Definition garbled_issue : json :=
  JDict {[ "key" := JStr "P-12"; "created" := JStr "garbage";
           "resolutiondate" := JStr t0103;
           "fields" := JDict {[ "created" := JStr t0101 ]} ]}.

(** ** Specification-side definitions *)

(** The threshold table of the specification, one row per metric, each row
    in the order Elite, High, Medium. *)
Definition tiers : list string := ["Elite"; "High"; "Medium"; "Low"].

Definition spec_table : list (string * list (string * Qc)) :=
  [ ("lead_time_days", [("Elite", qz 1); ("High", qz 7); ("Medium", qz 30)]);
    ("deployments_per_week", [("Elite", qz 7); ("High", qz 1); ("Medium", qfrac 2 10)]);
    ("mttr_hours", [("Elite", qz 1); ("High", qz 24); ("Medium", qz 168)]);
    ("failure_rate", [("Elite", qz 5); ("High", qz 15); ("Medium", qz 30)]) ].

(** The first tier of a row whose threshold the value satisfies under
    [value ≤ threshold]; [Low] when there is none. *)
Fixpoint first_satisfied (row : list (string * Qc)) (value : Qc) : string :=
  match row with
  | [] => "Low"
  | (tier, threshold) :: row' =>
      if bool_decide (value ≤ threshold) then tier else first_satisfied row' value
  end.

(** The issue record of the data model: a JSON object whose [fields]
    member, when present, is an object, and whose [issuetype] and [priority]
    members, at either level, are objects when present. *)
Definition is_object (v : json) : bool :=
  match v with JDict _ => true | _ => false end.

Definition member_is_object (m : pydict) (key : string) : bool :=
  match m !! key with Some v => is_object v | None => true end.

Definition issue_record (r : json) : bool :=
  match r with
  | JDict m =>
      member_is_object m "issuetype" && member_is_object m "priority"
      && match m !! "fields" with
         | Some (JDict f) => member_is_object f "issuetype" && member_is_object f "priority"
         | Some _ => false
         | None => true
         end
  | _ => false
  end.

(** The two places a logical field can sit in. *)
Definition top_value (r : json) (key : string) : json :=
  match r with JDict m => default JNull (m !! key) | _ => JNull end.

Definition nested_value (r : json) (key : string) : json :=
  match r with
  | JDict m =>
      match m !! "fields" with
      | Some (JDict f) => default JNull (f !! key)
      | _ => JNull
      end
  | _ => JNull
  end.

(** The value a calculator works with: the top-level one when it is truthy,
    the nested one otherwise. *)
Definition normalized (r : json) (key : string) : json :=
  if truthy (top_value r key) then top_value r key else nested_value r key.

Definition name_of (v : json) : json :=
  match v with JDict m => default JNull (m !! "name") | _ => JNull end.

(** Bug and critical records: the name matches at either place. *)
Definition bug_record (r : json) : bool :=
  py_eq_str (name_of (top_value r "issuetype")) "Bug"
  || py_eq_str (name_of (nested_value r "issuetype")) "Bug".

Definition critical_record (r : json) : bool :=
  py_in_strs (name_of (top_value r "priority")) ["Highest"; "High"]
  || py_in_strs (name_of (nested_value r "priority")) ["Highest"; "High"].

(** Records that carry the four logical fields under [fields] only. *)
Definition absent (m : pydict) (key : string) : bool :=
  match m !! key with None => true | Some _ => false end.

Definition nested_only (r : json) : bool :=
  match r with
  | JDict m => forallb (absent m) ["created"; "resolutiondate"; "issuetype"; "priority"]
  | _ => false
  end.

Section RecordModel.

Variable parser_parse : string → option datetime.


(** What one record contributes to the elapsed-time loops. *)
Definition elapsed_of (unit : Z) (r : json) : option Qc :=
  let created := normalized r "created" in
  let resolved := normalized r "resolutiondate" in
  if truthy created && truthy resolved
  then DORAMetrics.try_elapsed parser_parse unit created resolved
  else None.

(** The calendar day of a record's resolved timestamp, when it parses. *)
Definition resolved_day (r : json) : option Z :=
  let resolved := normalized r "resolutiondate" in
  if truthy resolved then dt_date <$> DORAMetrics.parse_arg parser_parse resolved
  else None.

End RecordModel.





(** The position of a tier, best first; anything else comes last. *)
Definition tier_rank (tier : string) : nat :=
  if String.eqb tier "Elite" then 0
  else if String.eqb tier "High" then 1
  else if String.eqb tier "Medium" then 2
  else if String.eqb tier "Low" then 3
  else 4.

(** The numeric entry of a result, for comparisons. *)
Definition entry (r : pydict) (key : string) : result Qc :=
  py_item r key ≫= py_number.

(** A record that is not a JSON object. *)
Definition not_object (v : json) : bool := negb (is_object v).

(** Sample draws of the generator and a stand-in for [strftime]. *)
Definition sample_strftime (t : Z) : string := pretty t.

Definition sample_draws : list DORAMetricsIntegrated.draw :=
  [ DORAMetricsIntegrated.mkDraw "Bug" "High" "Done" "Fix UI rendering bug"
      1700000000000000 3 48;
    DORAMetricsIntegrated.mkDraw "Story" "Low" "In Progress" "Add authentication system"
      1700000000000000 10 5 ].

(** A computation that can only fail with [AttributeError]. *)
Definition attribute_errors_only {A : Type} (m : result A) : Prop :=
  ∀ e, m = Raise e → e = AttributeError.

(** A parser that also reads one timestamp without an offset, and a
    record created with an offset and resolved without one. *)
Definition naive_parse (s : string) : option datetime :=
  if String.eqb s "2024-01-03 00:00:00"
  then Some (mkDatetime (19725 * us_per_day) None)
  else sample_parse s.

Definition mixed_issue : json :=
  nested_issue "P-13" "Bug" "High" t0101 (Some "2024-01-03 00:00:00").

(** ** Binary64 arithmetic

    The change failure rate calculator with the arithmetic of the
    interpreter: [int / int], [float * int] and [round(x, 1)] on IEEE 754
    binary64 values.  A float result is stored in [JFloat] by its exact
    value. *)

Module Binary64.

(** [float(n)], exact for an [int] of absolute value at most 2^53. *)
Definition of_Z (z : Z) : float :=
  if (z <? 0)%Z then PrimFloat.opp (PrimFloat.of_uint63 (Uint63.of_Z (- z)))
  else PrimFloat.of_uint63 (Uint63.of_Z z).

(** The exact value of a finite float. *)
Definition value (x : float) : Qc :=
  match Prim2SF x with
  | S754_finite s m e =>
      let mag := qz (Z.pos m) * (if (0 <=? e)%Z then qz (2 ^ e) else / qz (2 ^ (- e))) in
      if s then - mag else mag
  | _ => 0
  end.

(** [a / b] on two [int]s: the float nearest to the quotient, which for
    operands of absolute value at most 2^53 is the quotient of the two
    floats. *)
Definition truediv (a b : Z) : float := PrimFloat.div (of_Z a) (of_Z b).

(** The float nearest to [k/10], as [float] reads the decimal numeral with
    one fractional digit ([k] of absolute value at most 2^53). *)
Definition tenths (k : Z) : float := PrimFloat.div (of_Z k) (of_Z 10).

(** [round(x, 1)] on a float: the exact value of [x] is rounded half-even
    to one decimal and the decimal read back.  From 2^49 on (where floats
    are at least 1/8 apart) and on an infinity or a NaN the result is [x]
    itself. *)
Definition round1 (x : float) : float :=
  if PrimFloat.ltb (PrimFloat.abs x) (of_Z (2 ^ 49))
  then tenths (round_half_even (value x * qz 10))
  else x.

(** [round(v, 1)] on an [int] or a [float], as the value stored. *)
Definition py_round1 (v : Z + float) : json :=
  match v with
  | inl z => JInt z
  | inr x => JFloat (value (round1 x))
  end.

Definition calculate_change_failure_rate (issues : list json) : result pydict :=
  let total_issues := length issues in
  bug_issues ← DORAMetrics.comprehension DORAMetrics.is_bug issues;
  let bug_count := length bug_issues in
  let failure_rate : Z + float :=
    if (0 <? total_issues)%nat
    then inr (PrimFloat.mul (truediv (Z.of_nat bug_count) (Z.of_nat total_issues))
                            (of_Z 100))
    else inl 0%Z in
  critical_bugs ← DORAMetrics.comprehension DORAMetrics.is_critical bug_issues;
  mret {[ "total_issues" := JInt (Z.of_nat total_issues);
          "bug_issues" := JInt (Z.of_nat bug_count);
          "critical_bugs" := JInt (Z.of_nat (length critical_bugs));
          "failure_rate_percent" := py_round1 failure_rate;
          "critical_failure_rate_percent" :=
            if (0 <? total_issues)%nat
            then py_round1
                   (inr (PrimFloat.mul
                           (truediv (Z.of_nat (length critical_bugs))
                                    (Z.of_nat total_issues))
                           (of_Z 100)))
            else JInt 0 ]}.

End Binary64.

(** round(b/n*100, 1) as the calculator computes it. *)
Definition code_percent (b n : nat) : float :=
  Binary64.round1
    (PrimFloat.mul (Binary64.truediv (Z.of_nat b) (Z.of_nat n)) (Binary64.of_Z 100)).

(** round(100·b/n, 1) taken on the exact quotient: the float nearest to
    the half-even decimal. *)
Definition exact_percent (b n : nat) : float :=
  Binary64.tenths (round_half_even (qz 100 * qz (Z.of_nat b) / qz (Z.of_nat n) * qz 10)).

Definition percent_agrees (n b : nat) : bool :=
  bool_decide (Binary64.value (code_percent b n) = Binary64.value (exact_percent b n)).

(** Eighty records, twenty-three of them bugs: 100·23/80 is 28.75. *)
Definition tie_population : list json :=
  replicate 23 (nested_issue "P-1" "Bug" "Low" t0101 None)
  ++ replicate 57 (nested_issue "P-3" "Story" "Low" t0101 None).

(** ** The parser and the clock

    [dateutil.parser.parse] reads a time of day without a date on the
    current day: [clock_parse today] is the parser during a run on the
    day [today], on the strings of the samples. *)

Definition clock_parse (today : Z) (s : string) : option datetime :=
  if String.eqb s "12:00"
  then Some (mkDatetime (today * us_per_day + 12 * 3600 * us_per_second) None)
  else naive_parse s.

(** A record created on 2024-01-03 whose resolved value is a time of day. *)
Definition undated_issue : json :=
  nested_issue "P-14" "Story" "Low" "2024-01-03 00:00:00" (Some "12:00").

(** The strings the calculators hand to the parser: the values the
    two-location lookup finds under [created] and [resolutiondate]. *)
Definition timestamp_of (issue : json) (key : string) : list string :=
  match DORAMetrics.get_either issue key with
  | Ok (JStr s) => [s]
  | _ => []
  end.

Definition timestamps (issues : list json) : list string :=
  issue ← issues; timestamp_of issue "created" ++ timestamp_of issue "resolutiondate".

(** The lead time average of an aggregated result, as a fraction. *)
Definition lead_time_average (metrics : result pydict) : option Q :=
  match metrics with
  | Ok r =>
      match r !! "lead_time" with
      | Some (JDict lead_time) =>
          match lead_time !! "average" with
          | Some (JFloat q) => Some (this q)
          | _ => None
          end
      | _ => None
      end
  | Raise _ => None
  end.

(** * Properties *)

(** Order goals on [Qc] are sent to [lra] on the underlying [Q]. *)
Ltac qc_to_q :=
  unfold Qcle, Qclt, qz, qfrac in *; simpl in *;
  repeat match goal with
  | H : context [Qred _] |- _ => rewrite Qred_correct in H
  | |- context [Qred _] => rewrite Qred_correct
  end;
  unfold inject_Z in *.
Ltac qc_lra := qc_to_q; lra.

(** ** The classifier *)

Section Classifier.

Lemma row_elite (a b c : Qc) :
  ({[ "elite" := a; "high" := b; "medium" := c ]} : gmap string Qc) !!! "elite" = a.
Proof. reflexivity. Qed.

Lemma row_high (a b c : Qc) :
  ({[ "elite" := a; "high" := b; "medium" := c ]} : gmap string Qc) !!! "high" = b.
Proof. reflexivity. Qed.

Lemma row_medium (a b c : Qc) :
  ({[ "elite" := a; "high" := b; "medium" := c ]} : gmap string Qc) !!! "medium" = c.
Proof. reflexivity. Qed.

Lemma benchmarks_unknown (metric : string) :
  metric ∉ spec_table.*1 → benchmarks !! metric = None.
Proof.
  intros H. unfold benchmarks.
  rewrite !lookup_insert_ne, lookup_singleton_ne; [done|..];
    intros <-; apply H; cbn; set_solver.
Qed.

(** On a benchmarked metric the three comparisons of the code run down the
    row of the table. *)
Lemma get_performance_level_row (metric : string) (a b c : Qc) (value : Qc) :
  benchmarks !! metric = Some {[ "elite" := a; "high" := b; "medium" := c ]} →
  DORAMetrics.get_performance_level metric value
  = first_satisfied [("Elite", a); ("High", b); ("Medium", c)] value.
Proof.
  intros H. unfold DORAMetrics.get_performance_level. rewrite H.
  rewrite row_elite, row_high, row_medium. reflexivity.
Qed.

Lemma first_satisfied_tier (a b c value : Qc) :
  first_satisfied [("Elite", a); ("High", b); ("Medium", c)] value ∈ tiers.
Proof.
  cbn. unfold tiers. repeat case_bool_decide; set_solver.
Qed.

Lemma get_performance_level_same (metric : string) (value : Qc) :
  DORAMetricsIntegrated.get_performance_level metric value
  = DORAMetrics.get_performance_level metric value.
Proof. reflexivity. Qed.

End Classifier.

(** C1 (the code departs from it).  The code applies the one comparator
    [value <= threshold] to every metric, so on [deployments_per_week] any
    value above 7 fails all three checks: both classes answer [Low] where
    the claim promises [Elite]. *)
Theorem deployments_above_seven_classified_low (v : Qc) :
  qz 7 < v →
  DORAMetrics.get_performance_level "deployments_per_week" v = "Low"
  ∧ DORAMetricsIntegrated.get_performance_level "deployments_per_week" v = "Low".
Proof.
  intros Hv.
  assert (DORAMetrics.get_performance_level "deployments_per_week" v = "Low") as E.
  { rewrite (get_performance_level_row _ (qz 7) (qz 1) (qfrac 2 10)) by reflexivity.
    cbn. rewrite !bool_decide_eq_false_2; [done|..]; qc_lra. }
  split; [exact E|].
  etrans; [apply get_performance_level_same | exact E].
Qed.

(** Eight deployments a week are classified Low. *)
Lemma deployments_above_seven_classified_low_witness :
  qz 7 < qz 8
  ∧ DORAMetrics.get_performance_level "deployments_per_week" (qz 8) = "Low"
  ∧ DORAMetricsIntegrated.get_performance_level "deployments_per_week" (qz 8) = "Low".
Proof.
  assert (qz 7 < qz 8) as H by qc_lra.
  split; [exact H | exact (deployments_above_seven_classified_low (qz 8) H)].
Defined.

(** C7 (as stated it fails).  A metric name outside the table is not given
    one of the four tiers: the guard [if metric not in benchmarks] answers
    ["Unknown"]. *)
Lemma classify_unknown_metric_counterexample :
  ¬ (∀ (metric : string) (value : Qc),
       DORAMetrics.get_performance_level metric value ∈ tiers).
Proof.
  intros H. specialize (H "cycle_time" (qz 1)).
  assert (DORAMetrics.get_performance_level "cycle_time" (qz 1) = "Unknown") as E
    by reflexivity.
  rewrite E in H. unfold tiers in H.
  rewrite !elem_of_cons, elem_of_nil in H.
  destruct H as [?|[?|[?|[?|[]]]]]; discriminate.
Qed.

(** C7 (amended).  For each of the four metrics of the table the result is
    one of Elite, High, Medium, Low, and any other metric name yields
    ["Unknown"]; for [lead_time_days], [mttr_hours] and [failure_rate] the
    tier is the first one, in the ascending threshold order of the metric's
    row, whose threshold satisfies [value ≤ threshold], and Low when the
    value exceeds all three; the three sample classifications of
    [lead_time_days] hold. *)
Theorem classify_first_satisfied_tier (metric : string) (value : Qc) :
  (metric ∈ spec_table.*1 →
     DORAMetrics.get_performance_level metric value ∈ tiers)
  ∧ (metric ∉ spec_table.*1 →
     DORAMetrics.get_performance_level metric value = "Unknown")
  ∧ (∀ row, (metric, row) ∈ spec_table → metric ≠ "deployments_per_week" →
     StronglySorted Qcle row.*2
     ∧ DORAMetrics.get_performance_level metric value = first_satisfied row value)
  ∧ DORAMetrics.get_performance_level "lead_time_days" (qz 1) = "Elite"
  ∧ DORAMetrics.get_performance_level "lead_time_days" (qfrac 101 100) = "High"
  ∧ DORAMetrics.get_performance_level "lead_time_days" (qz 999) = "Low".
Proof.
  split; [|split; [|split; [|by vm_compute]]].
  - intros Hin. cbn in Hin.
    repeat (apply elem_of_cons in Hin as [->|Hin]);
      [ erewrite get_performance_level_row by reflexivity;
        apply first_satisfied_tier .. | by apply elem_of_nil in Hin ].
  - intros H. unfold DORAMetrics.get_performance_level.
    by rewrite benchmarks_unknown.
  - intros row Hrow Hne. unfold spec_table in Hrow.
    repeat (apply elem_of_cons in Hrow as [Hrow|Hrow]);
      [ injection Hrow as -> -> .. | by apply elem_of_nil in Hrow ];
      try done;
      (split; [ repeat constructor; by vm_compute
              | by apply get_performance_level_row ]).
Qed.

(** A mean time to recovery of 48 hours, read off the [mttr_hours] row. *)
Lemma classify_first_satisfied_tier_witness :
  "mttr_hours" ∈ spec_table.*1
  ∧ DORAMetrics.get_performance_level "mttr_hours" (qz 48) ∈ tiers
  ∧ DORAMetrics.get_performance_level "mttr_hours" (qz 48)
    = first_satisfied [("Elite", qz 1); ("High", qz 24); ("Medium", qz 168)] (qz 48).
Proof.
  assert ("mttr_hours" ∈ spec_table.*1) as Hin by (cbn; do 2 right; left).
  destruct (classify_first_satisfied_tier "mttr_hours" (qz 48)) as (Ht & _ & Hrow & _).
  split; [exact Hin|]. split; [exact (Ht Hin)|].
  apply Hrow; [|done]. unfold spec_table. do 2 right; left.
Defined.

(** ** The calculators on issue records *)

Section Records.

Variable parser_parse : string → option datetime.

Lemma member_is_object_default (m : pydict) (key : string) :
  member_is_object m key = true →
  ∃ o, default (JDict ∅) (m !! key) = JDict o
       ∧ default JNull (o !! "name") = name_of (default JNull (m !! key)).
Proof.
  unfold member_is_object. destruct (m !! key) as [v|]; simpl.
  - destruct v; try discriminate. intros _. by eexists.
  - intros _. by exists ∅.
Qed.

Lemma issue_record_inv (r : json) :
  issue_record r = true →
  ∃ m f, r = JDict m
    ∧ default (JDict ∅) (m !! "fields") = JDict f
    ∧ (∀ key, default JNull (f !! key) = nested_value r key)
    ∧ member_is_object m "issuetype" = true ∧ member_is_object m "priority" = true
    ∧ member_is_object f "issuetype" = true ∧ member_is_object f "priority" = true.
Proof.
  destruct r as [| | | | | |m]; try discriminate. simpl.
  rewrite !andb_true_iff. intros [[Ht Hp] Hf].
  destruct (m !! "fields") as [v|] eqn:E.
  - destruct v as [| | | | | |f]; try discriminate.
    apply andb_true_iff in Hf as [? ?].
    exists m, f. simpl. by rewrite E.
  - exists m, ∅. simpl. rewrite E. repeat split; auto.
Qed.

Lemma get_either_record (r : json) (key : string) :
  issue_record r = true → DORAMetrics.get_either r key = Ok (normalized r key).
Proof.
  intros (m & f & -> & Hf & Hn & _)%issue_record_inv.
  unfold DORAMetrics.get_either, normalized. simpl.
  destruct (truthy (default JNull (m !! key))); [done|].
  rewrite Hf. simpl. by rewrite Hn.
Qed.

Lemma is_bug_record (r : json) :
  issue_record r = true → DORAMetrics.is_bug r = Ok (bug_record r).
Proof.
  intros (m & f & -> & Hf & Hn & Ht & _ & Hft & _)%issue_record_inv.
  unfold DORAMetrics.is_bug, bug_record. simpl.
  destruct (member_is_object_default _ _ Ht) as (o & -> & Ho). simpl. rewrite Ho.
  destruct (py_eq_str _ "Bug"); [done|]. simpl.
  rewrite Hf. simpl.
  destruct (member_is_object_default _ _ Hft) as (o' & -> & Ho'). simpl.
  by rewrite Ho', Hn.
Qed.

Lemma is_critical_record (r : json) :
  issue_record r = true → DORAMetrics.is_critical r = Ok (critical_record r).
Proof.
  intros (m & f & -> & Hf & Hn & _ & Hp & _ & Hfp)%issue_record_inv.
  unfold DORAMetrics.is_critical, critical_record. simpl.
  destruct (member_is_object_default _ _ Hp) as (o & -> & Ho). simpl. rewrite Ho.
  match goal with |- context [if ?b then _ else _] => destruct b eqn:Eb end;
    [done|]. simpl.
  rewrite Hf. simpl.
  destruct (member_is_object_default _ _ Hfp) as (o' & -> & Ho'). simpl.
  by rewrite Ho', Hn.
Qed.

Lemma comprehension_records (cond : json → result bool) (p : json → bool)
    (issues : list json) :
  (∀ r, issue_record r = true → cond r = Ok (p r)) →
  forallb issue_record issues = true →
  DORAMetrics.comprehension cond issues = Ok (List.filter p issues).
Proof.
  intros Hc. induction issues as [|r issues IH]; [done|].
  simpl. intros [Hr Hrest]%andb_true_iff.
  rewrite (Hc r Hr). simpl. rewrite (IH Hrest). simpl.
  by destruct (p r).
Qed.

Lemma forallb_filter_records (p : json → bool) (issues : list json) :
  forallb issue_record issues = true →
  forallb issue_record (List.filter p issues) = true.
Proof.
  induction issues as [|r issues IH]; [done|].
  simpl. intros [Hr Hrest]%andb_true_iff.
  destruct (p r); simpl; [rewrite Hr|]; auto.
Qed.

Lemma elapsed_loop_records (unit : Z) (issues : list json) (acc : list Qc) :
  forallb issue_record issues = true →
  DORAMetrics.elapsed_loop parser_parse unit issues acc
  = Ok (acc ++ omap (elapsed_of parser_parse unit) issues).
Proof.
  revert acc. induction issues as [|r issues IH]; intros acc.
  - intros _. simpl. by rewrite app_nil_r.
  - simpl. intros [Hr Hrest]%andb_true_iff.
    rewrite !get_either_record by done. simpl.
    unfold elapsed_of at 1.
    destruct (truthy (normalized r "created") && truthy (normalized r "resolutiondate")).
    + destruct (DORAMetrics.try_elapsed _ _ _ _) as [t|].
      * rewrite IH by done. by rewrite <- app_assoc.
      * by rewrite IH.
    + by rewrite IH.
Qed.

Lemma resolution_loop_records (issues : list json) (acc : list Z) :
  forallb issue_record issues = true →
  DORAMetrics.resolution_loop parser_parse issues acc
  = Ok (acc ++ omap (resolved_day parser_parse) issues).
Proof.
  revert acc. induction issues as [|r issues IH]; intros acc.
  - intros _. simpl. by rewrite app_nil_r.
  - simpl. intros [Hr Hrest]%andb_true_iff.
    rewrite get_either_record by done. simpl.
    unfold resolved_day at 1.
    destruct (truthy (normalized r "resolutiondate")).
    + destruct (DORAMetrics.parse_arg _ _) as [d|]; simpl.
      * rewrite IH by done. by rewrite <- app_assoc.
      * by rewrite IH.
    + by rewrite IH.
Qed.

End Records.

(** ** Change failure rate *)

(** C6 (as stated it fails).  Of the eighty records of [tie_population]
    twenty-three are bugs, and 100·23/80 is 28.75, which rounds to 28.8
    whether the quotient is taken exactly or in binary64.  The code divides
    first: 23/80 is not a binary fraction, the product with 100 falls just
    below 28.75, and the rate returned is the float 28.7. *)
Lemma change_failure_rate_tie_counterexample :
  forallb issue_record tie_population = true
  ∧ length tie_population = 80%nat
  ∧ length (List.filter bug_record tie_population) = 23%nat
  ∧ (Binary64.calculate_change_failure_rate tie_population
       ≫= λ r, py_item r "failure_rate_percent")
    = Ok (JFloat (Binary64.value (Binary64.tenths 287)))
  ∧ round1 (qz 100 * qz 23 / qz 80) = qfrac 288 10
  ∧ Binary64.round1
      (PrimFloat.div (PrimFloat.mul (Binary64.of_Z 100) (Binary64.of_Z 23))
                     (Binary64.of_Z 80))
    = Binary64.tenths 288
  ∧ Binary64.value (Binary64.tenths 287) ≠ Binary64.value (Binary64.tenths 288)
  ∧ Binary64.value (Binary64.tenths 287) ≠ qfrac 288 10.
Proof.
  split; [by vm_compute|]. split; [by vm_compute|]. split; [by vm_compute|].
  split; [by vm_compute|]. split; [apply Qc_is_canon; by vm_compute|].
  split; [by vm_compute|].
  split; intros H; apply (f_equal this) in H; vm_compute in H; discriminate.
Qed.

(** Below eighty records the order of the operations does not show: every
    rate the calculator can return is the one of the exact quotient. *)
Lemma percent_agrees_below_80 :
  forallb (λ n, forallb (percent_agrees n) (seq 0 (S n))) (seq 1 79) = true.
Proof. by vm_compute. Qed.

Lemma percent_exact_below_80 (b n : nat) :
  (0 < n < 80)%nat → (b ≤ n)%nat →
  Binary64.value (code_percent b n) = Binary64.value (exact_percent b n).
Proof.
  intros Hn Hb. pose proof percent_agrees_below_80 as H.
  rewrite forallb_forall in H. specialize (H n).
  rewrite forallb_forall in H.
  eapply bool_decide_eq_true_1, H; apply in_seq; lia.
Qed.

(** C6 (amended).  On fewer than 2^53 issue records, with N the number of
    records, B the number of bug records and C the number of critical ones
    among them, the change failure rate result holds N, B, C and, when
    N > 0, the two rates round(B/N*100, 1) and round(C/N*100, 1) computed
    in binary64 in that order (the quotient first, then the product with
    100, then the rounding to one decimal); when N = 0 both rates are the
    integer 0 and nothing raises; N = 10 with B = 3 gives 30.0; and for
    0 < N < 80 the two rates are round(100·B/N, 1) and round(100·C/N, 1)
    of the exact quotients. *)
Theorem change_failure_rate_binary64 (issues : list json) :
  forallb issue_record issues = true →
  (Z.of_nat (length issues) < 2 ^ 53)%Z →
  let N := length issues in
  let B := length (List.filter bug_record issues) in
  let C := length (List.filter critical_record (List.filter bug_record issues)) in
  let percent (k : nat) : float :=
    Binary64.round1
      (PrimFloat.mul (Binary64.truediv (Z.of_nat k) (Z.of_nat N)) (Binary64.of_Z 100)) in
  ∃ r, Binary64.calculate_change_failure_rate issues = Ok r
    ∧ r !! "total_issues" = Some (JInt (Z.of_nat N))
    ∧ r !! "bug_issues" = Some (JInt (Z.of_nat B))
    ∧ r !! "critical_bugs" = Some (JInt (Z.of_nat C))
    ∧ (N ≠ 0%nat →
         r !! "failure_rate_percent" = Some (JFloat (Binary64.value (percent B)))
         ∧ r !! "critical_failure_rate_percent"
           = Some (JFloat (Binary64.value (percent C))))
    ∧ (N = 0%nat →
         r !! "failure_rate_percent" = Some (JInt 0)
         ∧ r !! "critical_failure_rate_percent" = Some (JInt 0))
    ∧ (N = 10%nat → B = 3%nat →
         r !! "failure_rate_percent" = Some (JFloat (qz 30)))
    ∧ ((0 < N < 80)%nat →
         r !! "failure_rate_percent"
         = Some (JFloat (Binary64.value (exact_percent B N)))
         ∧ r !! "critical_failure_rate_percent"
           = Some (JFloat (Binary64.value (exact_percent C N)))).
Proof.
  intros Hrec _ N B C percent.
  assert (C ≤ B ≤ N)%nat as Hle by (split; apply List.filter_length_le).
  revert Hle. subst N B C percent. intros Hle.
  unfold Binary64.calculate_change_failure_rate.
  rewrite (comprehension_records _ bug_record) by auto using is_bug_record.
  simpl.
  rewrite (comprehension_records _ critical_record)
    by auto using is_critical_record, forallb_filter_records.
  simpl. eexists. split; [reflexivity|].
  split; [done|]. split; [done|]. split; [done|].
  destruct issues as [|r0 issues0] eqn:E;
    [repeat split; try done; simpl in *; lia|].
  rewrite <- E in *. assert ((0 <? length issues)%nat = true) as Hpos.
  { subst issues. done. }
  rewrite !lookup_insert_ne, lookup_insert_eq by done.
  rewrite !lookup_insert_ne, lookup_singleton_eq by done.
  rewrite Hpos. simpl.
  split; [done|]. split; [subst issues; done|].
  split; [intros -> ->; do 2 f_equal; apply Qc_is_canon; by vm_compute|].
  intros Hsmall.
  split; do 2 f_equal; apply percent_exact_below_80; (done || lia).
Qed.

(** The scenario: five records, two bugs, one critical, 40.0 and 20.0
    percent. *)
Lemma change_failure_rate_binary64_witness :
  forallb issue_record scenario = true
  ∧ (Z.of_nat (length scenario) < 2 ^ 53)%Z
  ∧ ∃ r, Binary64.calculate_change_failure_rate scenario = Ok r
      ∧ r !! "total_issues" = Some (JInt 5)
      ∧ r !! "bug_issues" = Some (JInt 2)
      ∧ r !! "critical_bugs" = Some (JInt 1)
      ∧ r !! "failure_rate_percent" = Some (JFloat (qz 40))
      ∧ r !! "critical_failure_rate_percent" = Some (JFloat (qz 20)).
Proof.
  assert (forallb issue_record scenario = true) as H by (by vm_compute).
  assert (Z.of_nat (length scenario) < 2 ^ 53)%Z as Hsize by (by vm_compute).
  split; [exact H|]. split; [exact Hsize|].
  destruct (change_failure_rate_binary64 scenario H Hsize)
    as (r & Hr & Hn & Hb & Hc & Hrates & _).
  destruct Hrates as [Hf Hcr]; [done|].
  exists r. split; [exact Hr|]. split; [exact Hn|]. split; [exact Hb|].
  split; [exact Hc|]. split.
  - rewrite Hf. do 2 f_equal. apply Qc_is_canon. by vm_compute.
  - rewrite Hcr. do 2 f_equal. apply Qc_is_canon. by vm_compute.
Defined.

(** The calculator on exact quotients and the binary64 one hold the same
    counts, and raise alike. *)
Lemma binary64_same_counts (issues : list json) (key : string) :
  key ∈ ["total_issues"; "bug_issues"; "critical_bugs"] →
  (Binary64.calculate_change_failure_rate issues ≫= λ r, py_item r key)
  = (DORAMetrics.calculate_change_failure_rate issues ≫= λ r, py_item r key).
Proof.
  intros Hkey.
  unfold Binary64.calculate_change_failure_rate,
    DORAMetrics.calculate_change_failure_rate.
  destruct (DORAMetrics.comprehension DORAMetrics.is_bug issues) as [bugs|]; [|done].
  cbn -[insert singletonM lookup].
  destruct (DORAMetrics.comprehension DORAMetrics.is_critical bugs) as [critical|];
    [|done].
  cbn -[insert singletonM lookup]. unfold py_item.
  rewrite !elem_of_cons, elem_of_nil in Hkey.
  destruct Hkey as [->|[->|[->|[]]]].
  - by rewrite !lookup_insert_eq.
  - by rewrite !(lookup_insert_ne _ "total_issues"), !lookup_insert_eq by done.
  - by rewrite !(lookup_insert_ne _ "total_issues"), !(lookup_insert_ne _ "bug_issues"),
      !lookup_insert_eq by done.
Qed.

(** ** Deployment frequency *)

Lemma size_list_to_set_distinct (l : list Z) :
  size (list_to_set l : gset Z) = length (remove_dups l).
Proof.
  rewrite <- (size_list_to_set (C:=gset Z) (remove_dups l)) by apply NoDup_remove_dups.
  f_equal. apply set_eq. intros x.
  by rewrite !elem_of_list_to_set, elem_of_remove_dups.
Qed.

Section DeploymentFrequency.

Variable parser_parse : string → option datetime.

(** C5.  When at least one resolved timestamp parses, [total_deployments]
    is the number of distinct calendar days among the parsed resolved
    timestamps and [deployments_per_week] is round(total/90*7, 1), the
    window being the constant 90. *)
Theorem deployment_frequency_distinct_days (issues : list json) :
  forallb issue_record issues = true →
  omap (resolved_day parser_parse) issues ≠ [] →
  let total := length (remove_dups (omap (resolved_day parser_parse) issues)) in
  ∃ r, DORAMetrics.calculate_deployment_frequency parser_parse issues = Ok r
    ∧ r !! "total_deployments" = Some (JInt (Z.of_nat total))
    ∧ r !! "deployments_per_week"
      = Some (JFloat (round1 (qz (Z.of_nat total) / qz 90 * qz 7))).
Proof.
  intros Hrec Hne total. subst total.
  unfold DORAMetrics.calculate_deployment_frequency.
  rewrite resolution_loop_records by done. simpl.
  destruct (omap (resolved_day parser_parse) issues) as [|d days] eqn:E; [done|].
  rewrite size_list_to_set_distinct.
  eexists. split; [reflexivity|]. by split.
Qed.

(** C4 (the code departs from it).  When no resolved timestamp parses the
    result is the two-entry sentinel: it has no [total_deployments]. *)
Theorem deployment_frequency_sentinel_lacks_total (issues : list json) :
  forallb issue_record issues = true →
  omap (resolved_day parser_parse) issues = [] →
  ∃ r, DORAMetrics.calculate_deployment_frequency parser_parse issues = Ok r
    ∧ r !! "frequency" = Some (JStr "No data")
    ∧ r !! "deployments_per_week" = Some (JInt 0)
    ∧ r !! "total_deployments" = None.
Proof.
  intros Hrec Hnone.
  unfold DORAMetrics.calculate_deployment_frequency.
  rewrite resolution_loop_records by done. simpl. rewrite Hnone.
  eexists. split; [reflexivity|]. by repeat split.
Qed.

End DeploymentFrequency.

(** The four resolved records of the scenario fall on two calendar days. *)
Lemma deployment_frequency_distinct_days_witness :
  forallb issue_record scenario = true
  ∧ omap (resolved_day sample_parse) scenario ≠ []
  ∧ ∃ r, DORAMetrics.calculate_deployment_frequency sample_parse scenario = Ok r
      ∧ r !! "total_deployments" = Some (JInt 2).
Proof.
  assert (forallb issue_record scenario = true) as H1 by (by vm_compute).
  assert (omap (resolved_day sample_parse) scenario ≠ []) as H2 by (by vm_compute).
  split; [exact H1|]. split; [exact H2|].
  destruct (deployment_frequency_distinct_days sample_parse scenario H1 H2)
    as (r & Hr & Ht & _).
  exists r. split; [exact Hr|]. rewrite Ht. by vm_compute.
Defined.

(** One unresolved record gives the sentinel. *)
Lemma deployment_frequency_sentinel_lacks_total_witness :
  let unresolved := [nested_issue "P-2" "Bug" "Low" t0101 None] in
  forallb issue_record unresolved = true
  ∧ omap (resolved_day sample_parse) unresolved = []
  ∧ ∃ r, DORAMetrics.calculate_deployment_frequency sample_parse unresolved = Ok r
      ∧ r !! "total_deployments" = None.
Proof.
  intros unresolved.
  assert (forallb issue_record unresolved = true) as H1 by (by vm_compute).
  assert (omap (resolved_day sample_parse) unresolved = []) as H2 by (by vm_compute).
  split; [exact H1|]. split; [exact H2|].
  destruct (deployment_frequency_sentinel_lacks_total sample_parse unresolved H1 H2)
    as (r & Hr & _ & _ & Ht).
  exists r. by split.
Defined.

(** ** Records of an unexpected shape *)

(** C3 (the code departs from it).  The lookups [.get("priority", {})] and
    [.get("issuetype", {})] sit outside any [try]: a bug whose priority is
    [null] makes the change-failure-rate calculator, and with it the
    aggregator, raise [AttributeError], and so does a record whose issue
    type is a bare string in the MTTR calculator. *)
Theorem malformed_record_aborts_batch (now : string) :
  DORAMetrics.calculate_change_failure_rate (scenario ++ [unprioritized_bug])
  = Raise AttributeError
  ∧ DORAMetrics.analyze_dora_metrics sample_parse (scenario ++ [unprioritized_bug]) now
    = Raise AttributeError
  ∧ DORAMetrics.calculate_mttr sample_parse (scenario ++ [string_typed_issue])
    = Raise AttributeError.
Proof. split; [|split]; by vm_compute. Qed.

(** ** The aggregator *)

Lemma fmap_bind_ext {A B C : Type} (f : B → C) (m : result A) (k1 k2 : A → result B) :
  (∀ a, f <$> k1 a = f <$> k2 a) → f <$> (m ≫= k1) = f <$> (m ≫= k2).
Proof. intros H. destruct m as [a|e]; [apply H | done]. Qed.

(** C9 (as stated it fails).  The same record, created on 2024-01-03 and
    resolved at "12:00", analysed on 2024-01-04 and again on 2024-01-05:
    the parser reads the time of day on the day of the run, the lead time
    average is 1.5 days in the first run and 2.5 in the second, and the
    results differ beyond the analysis date. *)
Lemma analyze_dora_metrics_clock_counterexample :
  let run1 := DORAMetrics.analyze_dora_metrics (clock_parse 19726) [undated_issue]
                "2024-01-04 09:00:00" in
  let run2 := DORAMetrics.analyze_dora_metrics (clock_parse 19727) [undated_issue]
                "2024-01-05 09:00:00" in
  lead_time_average run1 = Some (3 # 2)%Q
  ∧ lead_time_average run2 = Some (5 # 2)%Q
  ∧ delete "analysis_date" <$> run1 ≠ delete "analysis_date" <$> run2.
Proof.
  split; [by vm_compute|]. split; [by vm_compute|].
  intros H.
  assert (∀ m : result pydict,
            lead_time_average (delete "analysis_date" <$> m) = lead_time_average m)
    as Hkeep.
  { intros [r|e]; [|done]. simpl. by rewrite lookup_delete_ne. }
  apply (f_equal lead_time_average) in H. rewrite !Hkeep in H.
  vm_compute in H. discriminate.
Qed.

Section Aggregator.

Variable parser_parse : string → option datetime.

(** With one parser, the reading of the clock that is recorded as the
    analysis date reaches no other entry of the result. *)
Lemma analysis_date_only (issues : list json) (now1 now2 : string) :
  delete "analysis_date" <$> DORAMetrics.analyze_dora_metrics parser_parse issues now1
  = delete "analysis_date" <$> DORAMetrics.analyze_dora_metrics parser_parse issues now2.
Proof.
  unfold DORAMetrics.analyze_dora_metrics.
  destruct issues as [|r issues]; [done|].
  destruct (DORAMetrics.calculate_lead_time _ _) as [lead_time|]; [|done].
  destruct (DORAMetrics.calculate_deployment_frequency _ _) as [deployment_freq|]; [|done].
  destruct (DORAMetrics.calculate_mttr _ _) as [mttr|]; [|done].
  destruct (DORAMetrics.calculate_change_failure_rate _) as [failure_rate|]; [|done].
  cbn -[delete insert singletonM].
  do 4 (apply fmap_bind_ext; intros ?).
  change (fmap ?f (mret ?x)) with (Ok (f x)).
  apply (f_equal (@Ok pydict)).
  rewrite !delete_insert_ne by done. by rewrite !delete_insert_eq.
Qed.

End Aggregator.

Section Runs.

(** The parser as it behaves during the first and during the second run. *)
Variables p1 p2 : string → option datetime.

Lemma timestamp_of_alike (issue : json) (key : string) (v : json) :
  Forall (λ s, p1 s = p2 s) (timestamp_of issue key) →
  DORAMetrics.get_either issue key = Ok v →
  DORAMetrics.parse_arg p1 v = DORAMetrics.parse_arg p2 v.
Proof.
  unfold timestamp_of. intros H E. rewrite E in H. destruct v; try done.
  by inversion H.
Qed.

Lemma timestamps_cons (issue : json) (issues : list json) :
  timestamps (issue :: issues)
  = timestamp_of issue "created" ++ timestamp_of issue "resolutiondate"
    ++ timestamps issues.
Proof. unfold timestamps. cbn. by rewrite <- app_assoc. Qed.

Lemma try_elapsed_alike (unit : Z) (created resolved : json) :
  DORAMetrics.parse_arg p1 created = DORAMetrics.parse_arg p2 created →
  DORAMetrics.parse_arg p1 resolved = DORAMetrics.parse_arg p2 resolved →
  DORAMetrics.try_elapsed p1 unit created resolved
  = DORAMetrics.try_elapsed p2 unit created resolved.
Proof. unfold DORAMetrics.try_elapsed. by intros -> ->. Qed.

Lemma elapsed_loop_alike (unit : Z) (issues : list json) (acc : list Qc) :
  Forall (λ s, p1 s = p2 s) (timestamps issues) →
  DORAMetrics.elapsed_loop p1 unit issues acc
  = DORAMetrics.elapsed_loop p2 unit issues acc.
Proof.
  revert acc. induction issues as [|issue issues IH]; intros acc; [done|].
  rewrite timestamps_cons, !Forall_app. intros (Hc & Hr & Hrest).
  cbn [DORAMetrics.elapsed_loop].
  destruct (DORAMetrics.get_either issue "created") as [created|] eqn:Ec; [|done].
  destruct (DORAMetrics.get_either issue "resolutiondate") as [resolved|] eqn:Er;
    [|done].
  cbn.
  rewrite (try_elapsed_alike unit created resolved)
    by eauto using timestamp_of_alike.
  destruct (_ && _); [|by apply IH].
  destruct (DORAMetrics.try_elapsed p2 unit created resolved); by apply IH.
Qed.

Lemma resolution_loop_alike (issues : list json) (acc : list Z) :
  Forall (λ s, p1 s = p2 s) (timestamps issues) →
  DORAMetrics.resolution_loop p1 issues acc = DORAMetrics.resolution_loop p2 issues acc.
Proof.
  revert acc. induction issues as [|issue issues IH]; intros acc; [done|].
  rewrite timestamps_cons, !Forall_app. intros (Hc & Hr & Hrest).
  cbn [DORAMetrics.resolution_loop].
  destruct (DORAMetrics.get_either issue "resolutiondate") as [resolved|] eqn:Er;
    [|done].
  cbn. rewrite (timestamp_of_alike issue "resolutiondate" resolved) by done.
  destruct (truthy resolved); [|by apply IH].
  destruct (DORAMetrics.parse_arg p2 resolved); by apply IH.
Qed.

Lemma comprehension_timestamps (cond : json → result bool) (issues kept : list json) :
  DORAMetrics.comprehension cond issues = Ok kept →
  Forall (λ s, p1 s = p2 s) (timestamps issues) →
  Forall (λ s, p1 s = p2 s) (timestamps kept).
Proof.
  revert kept. induction issues as [|issue issues IH]; intros kept.
  - by intros [= <-].
  - cbn [DORAMetrics.comprehension].
    destruct (cond issue) as [b|]; [|done]. cbn -[timestamps].
    destruct (DORAMetrics.comprehension cond issues) as [kept'|]; [|done].
    cbn -[timestamps]. intros [= <-]. rewrite timestamps_cons, !Forall_app.
    intros (Hc & Hr & Hrest). specialize (IH kept' eq_refl Hrest).
    destruct b; [|done]. by rewrite timestamps_cons, !Forall_app.
Qed.

Lemma calculate_mttr_alike (issues : list json) :
  Forall (λ s, p1 s = p2 s) (timestamps issues) →
  DORAMetrics.calculate_mttr p1 issues = DORAMetrics.calculate_mttr p2 issues.
Proof.
  intros H. unfold DORAMetrics.calculate_mttr.
  destruct (DORAMetrics.comprehension DORAMetrics.is_bug issues) as [bugs|] eqn:E;
    [|done].
  cbn. by rewrite (elapsed_loop_alike 3600 bugs [])
    by by eapply comprehension_timestamps.
Qed.

(** C9 (amended).  Two runs of the aggregator on the same records, each
    with the parser as it behaves during that run, differ at most in the
    recorded analysis date, provided the two parsers read alike every
    string found under [created] or [resolutiondate] in the records: with
    the analysis date removed the two results (summaries of the four
    metrics included), or the errors raised, are equal. *)
Theorem analyze_dora_metrics_repeatable (issues : list json) (now1 now2 : string) :
  Forall (λ s, p1 s = p2 s) (timestamps issues) →
  delete "analysis_date" <$> DORAMetrics.analyze_dora_metrics p1 issues now1
  = delete "analysis_date" <$> DORAMetrics.analyze_dora_metrics p2 issues now2.
Proof.
  intros H.
  rewrite (analysis_date_only p2 issues now2 now1).
  f_equal. unfold DORAMetrics.analyze_dora_metrics.
  destruct issues as [|issue issues]; [done|].
  unfold DORAMetrics.calculate_lead_time, DORAMetrics.calculate_deployment_frequency.
  by rewrite elapsed_loop_alike, resolution_loop_alike, calculate_mttr_alike.
Qed.

End Runs.

(** The scenario and a record resolved without an offset, analysed on
    2024-01-04 and on 2024-01-05: every timestamp is complete and both
    runs read it alike. *)
Lemma analyze_dora_metrics_repeatable_witness :
  let issues := scenario ++ [mixed_issue] in
  Forall (λ s, clock_parse 19726 s = clock_parse 19727 s) (timestamps issues)
  ∧ delete "analysis_date"
      <$> DORAMetrics.analyze_dora_metrics (clock_parse 19726) issues "2024-01-04 09:00:00"
    = delete "analysis_date"
        <$> DORAMetrics.analyze_dora_metrics (clock_parse 19727) issues "2024-01-05 09:00:00".
Proof.
  intros issues.
  assert (Forall (λ s, clock_parse 19726 s = clock_parse 19727 s) (timestamps issues))
    as H by (vm_compute; repeat constructor).
  split; [exact H|].
  exact (analyze_dora_metrics_repeatable (clock_parse 19726) (clock_parse 19727)
           issues "2024-01-04 09:00:00" "2024-01-05 09:00:00" H).
Defined.

(** ** The two classes on nested records *)

Section Variants.

Variable parser_parse : string → option datetime.

Lemma nested_only_inv (r : json) :
  nested_only r = true →
  ∃ m, r = JDict m ∧ m !! "created" = None ∧ m !! "resolutiondate" = None
       ∧ m !! "issuetype" = None ∧ m !! "priority" = None.
Proof.
  assert (∀ (m : pydict) key, absent m key = true → m !! key = None) as Habs.
  { intros m key. unfold absent. by destruct (m !! key). }
  destruct r as [| | | | | |m]; try discriminate. simpl.
  rewrite !andb_true_iff. intros (Hc & Hr & Ht & Hp & _).
  exists m. auto 10.
Qed.

Lemma get_either_nested (r : json) :
  nested_only r = true →
  DORAMetrics.get_either r "created" = DORAMetricsIntegrated.get_nested r "created"
  ∧ DORAMetrics.get_either r "resolutiondate"
    = DORAMetricsIntegrated.get_nested r "resolutiondate".
Proof.
  intros (m & -> & Hc & Hr & _)%nested_only_inv.
  unfold DORAMetrics.get_either, DORAMetricsIntegrated.get_nested. simpl.
  by rewrite Hc, Hr.
Qed.

Lemma is_bug_nested (r : json) :
  nested_only r = true → DORAMetrics.is_bug r = DORAMetricsIntegrated.is_bug r.
Proof.
  intros (m & -> & _ & _ & Ht & _)%nested_only_inv.
  unfold DORAMetrics.is_bug, DORAMetricsIntegrated.is_bug. simpl.
  by rewrite Ht.
Qed.

Lemma is_critical_nested (r : json) :
  nested_only r = true → DORAMetrics.is_critical r = DORAMetricsIntegrated.is_critical r.
Proof.
  intros (m & -> & _ & _ & _ & Hp)%nested_only_inv.
  unfold DORAMetrics.is_critical, DORAMetricsIntegrated.is_critical. simpl.
  by rewrite Hp.
Qed.

Lemma elapsed_loop_nested (unit : Z) (issues : list json) (acc : list Qc) :
  forallb nested_only issues = true →
  DORAMetrics.elapsed_loop parser_parse unit issues acc
  = DORAMetricsIntegrated.elapsed_loop parser_parse unit issues acc.
Proof.
  revert acc. induction issues as [|r issues IH]; intros acc; [done|].
  simpl. intros [Hr Hrest]%andb_true_iff.
  destruct (get_either_nested r Hr) as [-> ->].
  destruct (DORAMetricsIntegrated.get_nested r "created") as [created|]; [|done].
  destruct (DORAMetricsIntegrated.get_nested r "resolutiondate") as [resolved|]; [|done].
  simpl. change (DORAMetrics.try_elapsed parser_parse)
    with (DORAMetricsIntegrated.try_elapsed parser_parse).
  destruct (truthy created && truthy resolved); [|by apply IH].
  destruct (DORAMetricsIntegrated.try_elapsed _ _ _ _); by apply IH.
Qed.

Lemma resolution_loop_nested (issues : list json) (acc : list Z) :
  forallb nested_only issues = true →
  DORAMetrics.resolution_loop parser_parse issues acc
  = DORAMetricsIntegrated.resolution_loop parser_parse issues acc.
Proof.
  revert acc. induction issues as [|r issues IH]; intros acc; [done|].
  simpl. intros [Hr Hrest]%andb_true_iff.
  destruct (get_either_nested r Hr) as [_ ->].
  destruct (DORAMetricsIntegrated.get_nested r "resolutiondate") as [resolved|]; [|done].
  simpl. change (DORAMetrics.parse_arg parser_parse)
    with (DORAMetricsIntegrated.parse_arg parser_parse).
  destruct (truthy resolved); [|by apply IH].
  destruct (DORAMetricsIntegrated.parse_arg _ _); by apply IH.
Qed.

Lemma comprehension_nested (c1 c2 : json → result bool) (issues : list json) :
  (∀ r, nested_only r = true → c1 r = c2 r) →
  forallb nested_only issues = true →
  DORAMetrics.comprehension c1 issues = DORAMetricsIntegrated.comprehension c2 issues.
Proof.
  intros Hc. induction issues as [|r issues IH]; [done|].
  simpl. intros [Hr Hrest]%andb_true_iff.
  rewrite (Hc r Hr), (IH Hrest). reflexivity.
Qed.

Lemma comprehension_keeps (p : json → bool) (c : json → result bool)
    (issues kept : list json) :
  DORAMetricsIntegrated.comprehension c issues = Ok kept →
  forallb p issues = true → forallb p kept = true.
Proof.
  revert kept. induction issues as [|r issues IH]; intros kept; simpl.
  - by intros [= <-].
  - destruct (c r) as [b|]; [|done]. simpl.
    destruct (DORAMetricsIntegrated.comprehension c issues) as [kept'|]; [|done].
    simpl. intros [= <-] [Hr Hrest]%andb_true_iff.
    specialize (IH kept' eq_refl Hrest).
    destruct b; simpl; [rewrite Hr|]; done.
Qed.

(** C10.  On records that carry created, resolutiondate, issuetype and
    priority under [fields] only, each of the four calculators of
    [DORAMetrics] returns (or raises) exactly what its counterpart in
    [DORAMetricsIntegrated] does. *)
Theorem variants_agree_on_nested_records (issues : list json) :
  forallb nested_only issues = true →
  DORAMetrics.calculate_lead_time parser_parse issues
  = DORAMetricsIntegrated.calculate_lead_time parser_parse issues
  ∧ DORAMetrics.calculate_deployment_frequency parser_parse issues
    = DORAMetricsIntegrated.calculate_deployment_frequency parser_parse issues
  ∧ DORAMetrics.calculate_mttr parser_parse issues
    = DORAMetricsIntegrated.calculate_mttr parser_parse issues
  ∧ DORAMetrics.calculate_change_failure_rate issues
    = DORAMetricsIntegrated.calculate_change_failure_rate issues.
Proof.
  intros H. repeat split.
  - unfold DORAMetrics.calculate_lead_time, DORAMetricsIntegrated.calculate_lead_time.
    by rewrite elapsed_loop_nested.
  - unfold DORAMetrics.calculate_deployment_frequency,
      DORAMetricsIntegrated.calculate_deployment_frequency.
    by rewrite resolution_loop_nested.
  - unfold DORAMetrics.calculate_mttr, DORAMetricsIntegrated.calculate_mttr.
    rewrite (comprehension_nested _ DORAMetricsIntegrated.is_bug)
      by auto using is_bug_nested.
    destruct (DORAMetricsIntegrated.comprehension _ issues) as [bugs|] eqn:E; [|done].
    simpl. rewrite elapsed_loop_nested; [done|].
    by eapply comprehension_keeps.
  - unfold DORAMetrics.calculate_change_failure_rate,
      DORAMetricsIntegrated.calculate_change_failure_rate.
    rewrite (comprehension_nested _ DORAMetricsIntegrated.is_bug)
      by auto using is_bug_nested.
    destruct (DORAMetricsIntegrated.comprehension _ issues) as [bugs|] eqn:E; [|done].
    simpl.
    rewrite (comprehension_nested _ DORAMetricsIntegrated.is_critical);
      [done | auto using is_critical_nested | by eapply comprehension_keeps].
Qed.

End Variants.

(** The scenario is made of nested records. *)
Lemma variants_agree_on_nested_records_witness :
  forallb nested_only scenario = true
  ∧ DORAMetrics.calculate_mttr sample_parse scenario
    = DORAMetricsIntegrated.calculate_mttr sample_parse scenario.
Proof.
  assert (forallb nested_only scenario = true) as H by (by vm_compute).
  split; [exact H|].
  exact (proj1 (proj2 (proj2 (variants_agree_on_nested_records sample_parse scenario H)))).
Defined.

(** ** The two-location field lookup *)

(** C2 (as stated it fails).  A record typed Story at top level and Bug
    under [fields] is counted as a bug, and a record whose top-level created
    value does not parse is dropped from lead time although the nested
    value parses. *)
Lemma field_lookup_counterexample :
  name_of (top_value mislabeled_issue "issuetype") = JStr "Story"
  ∧ (DORAMetrics.calculate_change_failure_rate [mislabeled_issue]
       ≫= λ r, py_item r "bug_issues") = Ok (JInt 1)
  ∧ DORAMetrics.parse_arg sample_parse (top_value garbled_issue "created") = None
  ∧ is_Some (DORAMetrics.parse_arg sample_parse (nested_value garbled_issue "created"))
  ∧ is_Some (DORAMetrics.parse_arg sample_parse (top_value garbled_issue "resolutiondate"))
  ∧ (DORAMetrics.calculate_lead_time sample_parse [garbled_issue]
       ≫= λ r, py_item r "count") = Ok (JInt 0).
Proof.
  split; [by vm_compute|]. split; [by vm_compute|]. split; [by vm_compute|].
  split; [by eexists|]. split; [by eexists|]. by vm_compute.
Qed.

Section Normalizer.

Variable parser_parse : string → option datetime.

Lemma try_elapsed_unparsed (unit : Z) (created resolved : json) :
  DORAMetrics.parse_arg parser_parse created = None
  ∨ DORAMetrics.parse_arg parser_parse resolved = None →
  DORAMetrics.try_elapsed parser_parse unit created resolved = None.
Proof.
  unfold DORAMetrics.try_elapsed. intros [->| ->]; [done|].
  by destruct (DORAMetrics.parse_arg parser_parse created).
Qed.

(** C2 (amended).  On an issue record the lookup of a field yields the
    top-level value when that value is truthy and the value nested under
    [fields] otherwise; the elapsed-time loops drop the record whenever a
    value so chosen does not parse, whatever the other place holds; and the
    record is a bug (a critical one) when the issue type (priority) name
    matches at the top level or under [fields]. *)
Theorem field_lookup_truthy_top_level (r : json) :
  issue_record r = true →
  (∀ key, DORAMetrics.get_either r key
          = Ok (if truthy (top_value r key) then top_value r key
                else nested_value r key))
  ∧ (∀ unit acc,
       DORAMetrics.parse_arg parser_parse (normalized r "created") = None
       ∨ DORAMetrics.parse_arg parser_parse (normalized r "resolutiondate") = None →
       DORAMetrics.elapsed_loop parser_parse unit [r] acc = Ok acc)
  ∧ DORAMetrics.is_bug r
    = Ok (py_eq_str (name_of (top_value r "issuetype")) "Bug"
          || py_eq_str (name_of (nested_value r "issuetype")) "Bug")
  ∧ DORAMetrics.is_critical r
    = Ok (py_in_strs (name_of (top_value r "priority")) ["Highest"; "High"]
          || py_in_strs (name_of (nested_value r "priority")) ["Highest"; "High"]).
Proof.
  intros Hr. split; [|split; [|split]].
  - intros key. by apply get_either_record.
  - intros unit acc Hparse.
    rewrite elapsed_loop_records by (simpl; by rewrite Hr).
    simpl. unfold elapsed_of.
    rewrite (try_elapsed_unparsed _ _ _ Hparse).
    destruct (_ && _); simpl; by rewrite app_nil_r.
  - by apply is_bug_record.
  - by apply is_critical_record.
Qed.

End Normalizer.

(** The record with an unparseable top-level created value. *)
Lemma field_lookup_truthy_top_level_witness :
  issue_record garbled_issue = true
  ∧ DORAMetrics.get_either garbled_issue "created" = Ok (JStr "garbage")
  ∧ DORAMetrics.elapsed_loop sample_parse 86400 [garbled_issue] [] = Ok [].
Proof.
  assert (issue_record garbled_issue = true) as H by (by vm_compute).
  split; [exact H|].
  destruct (field_lookup_truthy_top_level sample_parse garbled_issue H)
    as (Hget & Hloop & _).
  split.
  - rewrite Hget. by vm_compute.
  - apply Hloop. left. by vm_compute.
Defined.

(** ** Rounding, mean, extremes and median *)

Lemma round_half_even_near (x : Qc) :
  let z := round_half_even x in
  ((2 * z - 1) * Z.pos (Qden x) ≤ 2 * Qnum x ≤ (2 * z + 1) * Z.pos (Qden x))%Z.
Proof.
  unfold round_half_even.
  set (n := Qnum x). set (d := Z.pos (Qden x)).
  assert (0 < d)%Z as Hd by (subst d; lia).
  pose proof (Z.div_mod n d ltac:(lia)) as Hdm.
  pose proof (Z.mod_pos_bound n d Hd) as Hr.
  set (q := (n / d)%Z) in *. set (r := (n mod d)%Z) in *.
  set (dq := (d * q)%Z) in *.
  assert ((2 * q - 1) * d = 2 * dq - d)%Z as E1 by (subst dq; ring).
  assert ((2 * q + 1) * d = 2 * dq + d)%Z as E2 by (subst dq; ring).
  assert ((2 * (q + 1) - 1) * d = 2 * dq + d)%Z as E3 by (subst dq; ring).
  assert ((2 * (q + 1) + 1) * d = 2 * dq + 3 * d)%Z as E4 by (subst dq; ring).
  cbv zeta.
  destruct (2 * r <? d)%Z eqn:L1; [apply Z.ltb_lt in L1; lia|].
  apply Z.ltb_ge in L1.
  destruct (d <? 2 * r)%Z eqn:L2; [apply Z.ltb_lt in L2; lia|].
  apply Z.ltb_ge in L2.
  destruct (Z.even q); lia.
Qed.

Lemma round_half_even_mono (x y : Qc) :
  x ≤ y → (round_half_even x ≤ round_half_even y)%Z.
Proof.
  intros Hle. destruct (Qcle_lt_or_eq _ _ Hle) as [Hlt| ->]; [|lia].
  pose proof (round_half_even_near x) as Hx.
  pose proof (round_half_even_near y) as Hy.
  cbv zeta in Hx, Hy.
  set (zx := round_half_even x) in *. set (zy := round_half_even y) in *.
  unfold Qclt, Qlt in Hlt.
  set (nx := Qnum x) in *. set (ny := Qnum y) in *.
  set (dx := Z.pos (Qden x)) in *. set (dy := Z.pos (Qden y)) in *.
  assert (0 < dx)%Z by (subst dx; lia). assert (0 < dy)%Z by (subst dy; lia).
  destruct (Z_le_gt_dec zx zy) as [|Hgt]; [done|exfalso].
  assert ((2 * zy + 1) * (dx * dy) ≤ (2 * zx - 1) * (dx * dy))%Z as H1.
  { apply Z.mul_le_mono_nonneg_r; lia. }
  assert ((2 * zx - 1) * dx * dy ≤ 2 * nx * dy)%Z as H2.
  { apply Z.mul_le_mono_nonneg_r; lia. }
  assert (2 * ny * dx ≤ (2 * zy + 1) * dy * dx)%Z as H3.
  { apply Z.mul_le_mono_nonneg_r; lia. }
  lia.
Qed.

Lemma qfrac_mono (z1 z2 : Z) (d : positive) : (z1 ≤ z2)%Z → qfrac z1 d ≤ qfrac z2 d.
Proof.
  intros H. unfold Qcle, qfrac. simpl. rewrite !Qred_correct.
  unfold Qle. simpl. nia.
Qed.

Lemma round1_mono (x y : Qc) : x ≤ y → round1 x ≤ round1 y.
Proof.
  intros H. unfold round1. apply qfrac_mono, round_half_even_mono.
  apply Qcmult_le_compat_r; [done|]. by vm_compute.
Qed.


Lemma qz_pos (n : nat) : (0 < n)%nat → 0 < qz (Z.of_nat n).
Proof.
  intros H. unfold Qclt, qz. simpl this. rewrite !Qred_correct.
  unfold Qlt. simpl. lia.
Qed.

Lemma qmin_le_l a b : qmin a b ≤ a.
Proof. unfold qmin. case_bool_decide; [by apply Qclt_le_weak|done]. Qed.
Lemma qmin_le_r a b : qmin a b ≤ b.
Proof. unfold qmin. case_bool_decide; [done|by apply Qcnot_lt_le]. Qed.
Lemma qmax_ge_l a b : a ≤ qmax a b.
Proof. unfold qmax. case_bool_decide; [by apply Qclt_le_weak|done]. Qed.
Lemma qmax_ge_r a b : b ≤ qmax a b.
Proof. unfold qmax. case_bool_decide; [done|by apply Qcnot_lt_le]. Qed.

Lemma fold_left_qmin_le (l : list Qc) (a : Qc) :
  Forall (λ x, fold_left qmin l a ≤ x) (a :: l).
Proof.
  revert a. induction l as [|b l IH]; intros a; simpl.
  - by repeat constructor.
  - specialize (IH (qmin a b)). inversion IH as [|? ? Hh Ht]; subst.
    constructor; [|constructor; [|done]].
    + etrans; [exact Hh|apply qmin_le_l].
    + etrans; [exact Hh|apply qmin_le_r].
Qed.

Lemma fold_left_qmin_elem (l : list Qc) (a : Qc) : fold_left qmin l a ∈ a :: l.
Proof.
  revert a. induction l as [|b l IH]; intros a; simpl; [by left|].
  specialize (IH (qmin a b)). apply elem_of_cons in IH as [E|IH].
  - rewrite E. unfold qmin. case_bool_decide; [right; left | left]; done.
  - by do 2 right.
Qed.

Lemma fold_left_qmax_ge (l : list Qc) (a : Qc) :
  Forall (λ x, x ≤ fold_left qmax l a) (a :: l).
Proof.
  revert a. induction l as [|b l IH]; intros a; simpl.
  - by repeat constructor.
  - specialize (IH (qmax a b)). inversion IH as [|? ? Hh Ht]; subst.
    constructor; [|constructor; [|done]].
    + etrans; [apply qmax_ge_l|exact Hh].
    + etrans; [apply qmax_ge_r|exact Hh].
Qed.

Lemma fold_left_qmax_elem (l : list Qc) (a : Qc) : fold_left qmax l a ∈ a :: l.
Proof.
  revert a. induction l as [|b l IH]; intros a; simpl; [by left|].
  specialize (IH (qmax a b)). apply elem_of_cons in IH as [E|IH].
  - rewrite E. unfold qmax. case_bool_decide; [right; left | left]; done.
  - by do 2 right.
Qed.



Lemma Qcle_div_r (a b c : Qc) : 0 < c → c * a ≤ b → a ≤ b / c.
Proof.
  intros Hc H. apply Qcmult_lt_0_le_reg_r with c; [done|].
  unfold Qcdiv. rewrite <- Qcmult_assoc, Qcmult_inv_l, Qcmult_1_r.
  - by rewrite Qcmult_comm.
  - intros ->. by apply (Qclt_not_eq 0 0).
Qed.



Section Counting.

Variable f : Qc → bool.




End Counting.








(** ** Lead time *)

Section LeadTime.

Variable parser_parse : string → option datetime.




End LeadTime.


(** * Further properties of the engine *)

(** ** The classifier, tier by tier *)

Lemma in_spec_table_cases (metric : string) :
  metric ∈ spec_table.*1 →
  metric = "lead_time_days" ∨ metric = "deployments_per_week"
  ∨ metric = "mttr_hours" ∨ metric = "failure_rate".
Proof.
  cbn. rewrite !elem_of_cons, elem_of_nil. tauto.
Qed.

Lemma first_satisfied_rank_mono (a b c v w : Qc) :
  v ≤ w →
  (tier_rank (first_satisfied [("Elite", a); ("High", b); ("Medium", c)] v)
   ≤ tier_rank (first_satisfied [("Elite", a); ("High", b); ("Medium", c)] w))%nat.
Proof.
  intros Hvw. cbn.
  repeat case_bool_decide; cbn; try lia;
    exfalso; eauto using Qcle_trans.
Qed.

(** X1.  The classifier is monotone: for every metric name, a larger value
    never receives a better tier than a smaller one. *)
Theorem classify_monotone (metric : string) (v w : Qc) :
  v ≤ w →
  (tier_rank (DORAMetrics.get_performance_level metric v)
   ≤ tier_rank (DORAMetrics.get_performance_level metric w))%nat.
Proof.
  intros Hvw. destruct (decide (metric ∈ spec_table.*1)) as [Hin|Hout].
  - apply in_spec_table_cases in Hin as [->|[->|[->| ->]]];
      erewrite !get_performance_level_row by reflexivity;
      by apply first_satisfied_rank_mono.
  - unfold DORAMetrics.get_performance_level. by rewrite benchmarks_unknown.
Qed.

(** Two values for which the tiers differ. *)
Lemma classify_monotone_witness :
  qz 2 ≤ qz 40
  ∧ (tier_rank (DORAMetrics.get_performance_level "lead_time_days" (qz 2))
     ≤ tier_rank (DORAMetrics.get_performance_level "lead_time_days" (qz 40)))%nat.
Proof.
  assert (qz 2 ≤ qz 40) as H by qc_lra.
  split; [exact H | exact (classify_monotone "lead_time_days" _ _ H)].
Defined.

Lemma first_satisfied_intervals (a b c v : Qc) :
  a ≤ b → b ≤ c →
  let tier := first_satisfied [("Elite", a); ("High", b); ("Medium", c)] v in
  (tier = "Elite" ↔ v ≤ a)
  ∧ (tier = "High" ↔ a < v ∧ v ≤ b)
  ∧ (tier = "Medium" ↔ b < v ∧ v ≤ c)
  ∧ (tier = "Low" ↔ c < v).
Proof.
  intros Hab Hbc. cbn.
  repeat case_bool_decide; repeat split; intros; try discriminate; try done;
    repeat match goal with H : _ ∧ _ |- _ => destruct H end;
    unfold Qcle, Qclt in *; lra.
Qed.

(** X2.  For lead_time_days, mttr_hours and failure_rate, with thresholds
    a, b, c of the metric's row: Elite exactly for values up to a, High for
    values in (a, b], Medium for values in (b, c], Low above c. *)
Theorem classify_intervals (metric : string) (a b c v : Qc) :
  (metric, [("Elite", a); ("High", b); ("Medium", c)]) ∈ spec_table →
  metric ≠ "deployments_per_week" →
  let tier := DORAMetrics.get_performance_level metric v in
  (tier = "Elite" ↔ v ≤ a)
  ∧ (tier = "High" ↔ a < v ∧ v ≤ b)
  ∧ (tier = "Medium" ↔ b < v ∧ v ≤ c)
  ∧ (tier = "Low" ↔ c < v).
Proof.
  intros Hrow Hne. unfold spec_table in Hrow.
  repeat (apply elem_of_cons in Hrow as [Hrow|Hrow]);
    [ injection Hrow as -> -> -> -> .. | by apply elem_of_nil in Hrow ];
    try done;
    (erewrite get_performance_level_row by reflexivity;
     apply first_satisfied_intervals; by vm_compute).
Qed.

(** The [mttr_hours] row at 30 hours. *)
Lemma classify_intervals_witness :
  ("mttr_hours", [("Elite", qz 1); ("High", qz 24); ("Medium", qz 168)]) ∈ spec_table
  ∧ "mttr_hours" ≠ "deployments_per_week"
  ∧ (DORAMetrics.get_performance_level "mttr_hours" (qz 30) = "Medium"
     ↔ qz 24 < qz 30 ∧ qz 30 ≤ qz 168).
Proof.
  assert (("mttr_hours", [("Elite", qz 1); ("High", qz 24); ("Medium", qz 168)])
          ∈ spec_table) as H1 by (unfold spec_table; do 2 right; left).
  assert ("mttr_hours" ≠ "deployments_per_week") as H2 by done.
  split; [exact H1|]. split; [exact H2|].
  exact (proj1 (proj2 (proj2 (classify_intervals _ _ _ _ (qz 30) H1 H2)))).
Defined.

(** X3.  On deployments_per_week the classifier answers Elite exactly for
    values up to 7 and Low exactly for values above 7; it never answers
    High or Medium. *)
Theorem classify_deployments_two_tiers (v : Qc) :
  let tier := DORAMetrics.get_performance_level "deployments_per_week" v in
  (tier = "Elite" ↔ v ≤ qz 7)
  ∧ (tier = "Low" ↔ qz 7 < v)
  ∧ tier ≠ "High" ∧ tier ≠ "Medium".
Proof.
  cbv zeta.
  rewrite (get_performance_level_row _ (qz 7) (qz 1) (qfrac 2 10)) by reflexivity.
  cbn.
  assert (qz 1 ≤ qz 7) as H17 by (by vm_compute).
  assert (qfrac 2 10 ≤ qz 7) as H27 by (by vm_compute).
  repeat case_bool_decide; repeat split; intros; try discriminate; try done;
    unfold Qcle, Qclt in *; lra.
Qed.

(** ** Populations of the calculators *)

Section Populations.

Variable parser_parse : string → option datetime.

Lemma omap_all_none {A B : Type} (f : A → option B) (l : list A) :
  Forall (λ x, f x = None) l → omap f l = [].
Proof. induction 1 as [|x l Hx _ IH]; [done|]. cbn. by rewrite Hx. Qed.

Lemma Forall_list_filter {A : Type} (P : A → Prop) (p : A → bool) (l : list A) :
  Forall P l → Forall P (List.filter p l).
Proof.
  induction 1 as [|x l Hx _ IH]; [done|]. simpl.
  destruct (p x); [by constructor | done].
Qed.

Lemma length_omap_le {A B : Type} (f : A → option B) (l : list A) :
  (length (omap f l) ≤ length l)%nat.
Proof.
  induction l as [|x l IH]; [done|]. cbn. destruct (f x); simpl; lia.
Qed.

Lemma length_omap_filter_le {A B : Type} (f : A → option B) (p : A → bool)
    (l : list A) :
  (length (omap f (List.filter p l)) ≤ length (omap f l))%nat.
Proof.
  induction l as [|x l IH]; [done|]. cbn.
  destruct (p x); cbn; destruct (f x); simpl; lia.
Qed.

Lemma unresolved_not_elapsed (unit : Z) (r : json) :
  resolved_day parser_parse r = None → elapsed_of parser_parse unit r = None.
Proof.
  unfold resolved_day, elapsed_of.
  destruct (truthy (normalized r "resolutiondate")); [|by rewrite andb_false_r].
  destruct (DORAMetrics.parse_arg parser_parse (normalized r "resolutiondate"))
    eqn:E; [done|]. intros _.
  rewrite (try_elapsed_unparsed parser_parse _ _ _ (or_intror E)).
  by destruct (truthy _ && true).
Qed.

(** X4.  When no record has a parseable resolved timestamp (all issues
    still open, say), lead time and MTTR return their all-zero results with
    integer entries and count 0. *)
Theorem unresolved_records_give_zero_results (issues : list json) :
  forallb issue_record issues = true →
  Forall (λ r, resolved_day parser_parse r = None) issues →
  DORAMetrics.calculate_lead_time parser_parse issues
  = Ok {[ "average" := JInt 0; "median" := JInt 0; "min" := JInt 0;
          "max" := JInt 0; "count" := JInt 0 ]}
  ∧ DORAMetrics.calculate_mttr parser_parse issues
    = Ok {[ "average_hours" := JInt 0; "average_days" := JInt 0; "count" := JInt 0 ]}.
Proof.
  intros Hrec Hopen. split.
  - unfold DORAMetrics.calculate_lead_time.
    rewrite elapsed_loop_records by done. simpl.
    rewrite omap_all_none; [done|].
    eapply Forall_impl; [exact Hopen|]. intros r. apply unresolved_not_elapsed.
  - unfold DORAMetrics.calculate_mttr.
    rewrite (comprehension_records _ bug_record) by auto using is_bug_record.
    simpl. rewrite elapsed_loop_records by by apply forallb_filter_records.
    simpl. rewrite omap_all_none; [done|].
    apply Forall_list_filter.
    eapply Forall_impl; [exact Hopen|]. intros r. apply unresolved_not_elapsed.
Qed.

Lemma lead_time_returns (issues : list json) :
  forallb issue_record issues = true →
  ∃ lt, DORAMetrics.calculate_lead_time parser_parse issues = Ok lt
    ∧ lt !! "count"
      = Some (JInt (Z.of_nat (length (omap (elapsed_of parser_parse 86400) issues)))).
Proof.
  intros Hrec. unfold DORAMetrics.calculate_lead_time.
  rewrite elapsed_loop_records by done. simpl.
  change (Z.mul 24 3600) with 86400%Z.
  destruct (omap _ issues); eexists; (split; [reflexivity|done]).
Qed.

Lemma mttr_returns (issues : list json) :
  forallb issue_record issues = true →
  ∃ mt, DORAMetrics.calculate_mttr parser_parse issues = Ok mt
    ∧ mt !! "count"
      = Some (JInt (Z.of_nat (length (omap (elapsed_of parser_parse 3600)
                                        (List.filter bug_record issues))))).
Proof.
  intros Hrec. unfold DORAMetrics.calculate_mttr.
  rewrite (comprehension_records _ bug_record) by auto using is_bug_record.
  simpl. rewrite elapsed_loop_records by by apply forallb_filter_records.
  simpl. destruct (omap _ _); eexists; (split; [reflexivity|done]).
Qed.

Lemma failure_rate_returns (issues : list json) :
  forallb issue_record issues = true →
  ∃ cf, DORAMetrics.calculate_change_failure_rate issues = Ok cf
    ∧ cf !! "total_issues" = Some (JInt (Z.of_nat (length issues)))
    ∧ cf !! "bug_issues"
      = Some (JInt (Z.of_nat (length (List.filter bug_record issues))))
    ∧ cf !! "critical_bugs"
      = Some (JInt (Z.of_nat (length (List.filter critical_record
                                        (List.filter bug_record issues))))).
Proof.
  intros Hrec. unfold DORAMetrics.calculate_change_failure_rate.
  rewrite (comprehension_records _ bug_record) by auto using is_bug_record.
  simpl.
  rewrite (comprehension_records _ critical_record)
    by auto using is_critical_record, forallb_filter_records.
  simpl. eexists. by split.
Qed.

Lemma elapsed_units_agree (r : json) :
  is_Some (elapsed_of parser_parse 3600 r)
  ↔ is_Some (elapsed_of parser_parse 86400 r).
Proof.
  unfold elapsed_of, DORAMetrics.try_elapsed.
  destruct (_ && _); [|done].
  destruct (DORAMetrics.parse_arg _ _); [|done].
  destruct (DORAMetrics.parse_arg _ _); [|done]. simpl.
  by destruct (dt_sub _ _).
Qed.

Lemma length_elapsed_units (l : list json) :
  length (omap (elapsed_of parser_parse 3600) l)
  = length (omap (elapsed_of parser_parse 86400) l).
Proof.
  induction l as [|r l IH]; [done|]. cbn.
  pose proof (elapsed_units_agree r) as Hsame.
  destruct (elapsed_of parser_parse 3600 r), (elapsed_of parser_parse 86400 r);
    simpl; try lia.
  - destruct (proj1 Hsame ltac:(by eexists)) as [? [=]].
  - destruct (proj2 Hsame ltac:(by eexists)) as [? [=]].
Qed.

(** X5.  The populations are nested: the MTTR count is at most the lead
    time count and at most the number of bugs, the number of critical bugs
    is at most the number of bugs, and the lead time count and the number
    of bugs are at most the number of records. *)
Theorem population_counts_nested (issues : list json) :
  forallb issue_record issues = true →
  ∃ (lt mt cf : pydict) (timed timed_bugs bugs critical : nat),
    DORAMetrics.calculate_lead_time parser_parse issues = Ok lt
    ∧ DORAMetrics.calculate_mttr parser_parse issues = Ok mt
    ∧ DORAMetrics.calculate_change_failure_rate issues = Ok cf
    ∧ lt !! "count" = Some (JInt (Z.of_nat timed))
    ∧ mt !! "count" = Some (JInt (Z.of_nat timed_bugs))
    ∧ cf !! "bug_issues" = Some (JInt (Z.of_nat bugs))
    ∧ cf !! "critical_bugs" = Some (JInt (Z.of_nat critical))
    ∧ (timed_bugs ≤ timed)%nat ∧ (timed ≤ length issues)%nat
    ∧ (timed_bugs ≤ bugs)%nat ∧ (critical ≤ bugs)%nat
    ∧ (bugs ≤ length issues)%nat.
Proof.
  intros Hrec.
  destruct (lead_time_returns issues Hrec) as (lt & Hlt & Hltc).
  destruct (mttr_returns issues Hrec) as (mt & Hmt & Hmtc).
  destruct (failure_rate_returns issues Hrec) as (cf & Hcf & _ & Hb & Hc).
  exists lt, mt, cf. do 4 eexists.
  do 7 (split; [eassumption|]).
  repeat split.
  - rewrite length_elapsed_units. apply length_omap_filter_le.
  - apply length_omap_le.
  - apply length_omap_le.
  - apply List.filter_length_le.
  - apply List.filter_length_le.
Qed.

End Populations.

(** The scenario with every resolution date removed. *)
Lemma unresolved_records_give_zero_results_witness :
  let issues := [ nested_issue "P-1" "Bug" "High" t0101 None;
                  nested_issue "P-3" "Story" "Medium" t0101 None ] in
  forallb issue_record issues = true
  ∧ Forall (λ r, resolved_day sample_parse r = None) issues
  ∧ DORAMetrics.calculate_mttr sample_parse issues
    = Ok {[ "average_hours" := JInt 0; "average_days" := JInt 0; "count" := JInt 0 ]}.
Proof.
  intros issues.
  assert (forallb issue_record issues = true) as H1 by (by vm_compute).
  assert (Forall (λ r, resolved_day sample_parse r = None) issues) as H2
    by (repeat constructor; by vm_compute).
  split; [exact H1|]. split; [exact H2|].
  exact (proj2 (unresolved_records_give_zero_results sample_parse issues H1 H2)).
Defined.

(** The scenario: four timed records, one timed bug, two bugs. *)
Lemma population_counts_nested_witness :
  forallb issue_record scenario = true
  ∧ ∃ lt mt, DORAMetrics.calculate_lead_time sample_parse scenario = Ok lt
      ∧ DORAMetrics.calculate_mttr sample_parse scenario = Ok mt.
Proof.
  assert (forallb issue_record scenario = true) as H by (by vm_compute).
  split; [exact H|].
  destruct (population_counts_nested sample_parse scenario H)
    as (lt & mt & cf & ? & ? & ? & ? & Hlt & Hmt & _).
  by exists lt, mt.
Defined.

(** ** Rates and averages *)

Lemma qz_le (z1 z2 : Z) : (z1 ≤ z2)%Z → qz z1 ≤ qz z2.
Proof.
  intros H. unfold Qcle, qz. simpl. rewrite !Qred_correct.
  unfold Qle. simpl. lia.
Qed.

Lemma qz_nonzero (n : nat) : (0 < n)%nat → qz (Z.of_nat n) ≠ 0.
Proof.
  intros H E. pose proof (qz_pos n H) as Hpos. rewrite E in Hpos.
  by apply (Qclt_not_eq 0 0).
Qed.

Lemma Qcdiv_le_mono (a b n : Qc) : 0 < n → a ≤ b → a / n ≤ b / n.
Proof.
  intros Hn Hab. apply Qcle_div_r; [done|].
  rewrite Qcmult_div_r; [done|]. intros ->. by apply (Qclt_not_eq 0 0).
Qed.

Lemma percent_mono (b1 b2 n : nat) :
  (0 < n)%nat → (b1 ≤ b2)%nat →
  qz (Z.of_nat b1) / qz (Z.of_nat n) * qz 100
  ≤ qz (Z.of_nat b2) / qz (Z.of_nat n) * qz 100.
Proof.
  intros Hn Hb. apply Qcmult_le_compat_r; [|by vm_compute].
  apply Qcdiv_le_mono; [by apply qz_pos|]. apply qz_le. lia.
Qed.

Lemma percent_zero (n : nat) : qz (Z.of_nat 0) / qz (Z.of_nat n) * qz 100 = 0.
Proof.
  replace (qz (Z.of_nat 0)) with (Q2Qc 0) by (by apply Qc_is_canon).
  unfold Qcdiv. by rewrite !Qcmult_0_l.
Qed.

Lemma percent_all (n : nat) :
  (0 < n)%nat → qz (Z.of_nat n) / qz (Z.of_nat n) * qz 100 = qz 100.
Proof.
  intros Hn. unfold Qcdiv. rewrite Qcmult_inv_r by by apply qz_nonzero.
  apply Qcmult_1_l.
Qed.

Lemma round1_zero : round1 0 = 0.
Proof. apply Qc_is_canon. by vm_compute. Qed.

Lemma round1_hundred : round1 (qz 100) = qz 100.
Proof. apply Qc_is_canon. by vm_compute. Qed.

(** X6.  On a non-empty sequence of issue records both rates are floats
    and, as numbers, 0 ≤ critical_failure_rate_percent ≤
    failure_rate_percent ≤ 100. *)
Theorem failure_rates_ordered (issues : list json) :
  issues ≠ [] →
  forallb issue_record issues = true →
  ∃ (cf : pydict) (f c : Qc),
    DORAMetrics.calculate_change_failure_rate issues = Ok cf
    ∧ cf !! "failure_rate_percent" = Some (JFloat f)
    ∧ cf !! "critical_failure_rate_percent" = Some (JFloat c)
    ∧ 0 ≤ c ∧ c ≤ f ∧ f ≤ qz 100.
Proof.
  intros Hne Hrec. unfold DORAMetrics.calculate_change_failure_rate.
  rewrite (comprehension_records _ bug_record) by auto using is_bug_record.
  simpl.
  rewrite (comprehension_records _ critical_record)
    by auto using is_critical_record, forallb_filter_records.
  simpl.
  assert (0 < length issues)%nat as Hpos by (destruct issues; [done|simpl; lia]).
  assert ((0 <? length issues)%nat = true) as -> by by apply Nat.ltb_lt.
  simpl. do 3 eexists. split; [reflexivity|].
  split; [done|]. split; [done|].
  split; [|split].
  - etrans; [|apply round1_mono, (percent_mono 0); [done|lia]].
    by rewrite percent_zero, round1_zero.
  - apply round1_mono, percent_mono; [done|]. apply List.filter_length_le.
  - etrans; [apply round1_mono, (percent_mono _ (length issues)); [done|]|].
    + apply List.filter_length_le.
    + by rewrite percent_all, round1_hundred.
Qed.

(** The scenario: 20.0 and 40.0 percent. *)
Lemma failure_rates_ordered_witness :
  scenario ≠ [] ∧ forallb issue_record scenario = true
  ∧ ∃ cf, DORAMetrics.calculate_change_failure_rate scenario = Ok cf.
Proof.
  assert (scenario ≠ []) as H1 by done.
  assert (forallb issue_record scenario = true) as H2 by (by vm_compute).
  split; [exact H1|]. split; [exact H2|].
  destruct (failure_rates_ordered scenario H1 H2) as (cf & f & c & Hcf & _).
  by exists cf.
Defined.

Section MttrAndLeadTime.

Variable parser_parse : string → option datetime.

(** X7.  MTTR measures the bug records that lead time would measure: on
    issue records the [count] entry of the MTTR result equals the [count]
    entry of the lead-time result computed on the bug records alone, and
    MTTR returns its all-zero result exactly when that lead-time result is
    the all-zero one. *)
Theorem mttr_counts_lead_time_of_bugs (issues : list json) :
  forallb issue_record issues = true →
  let bugs := List.filter bug_record issues in
  (DORAMetrics.calculate_mttr parser_parse issues ≫= λ r, py_item r "count")
  = (DORAMetrics.calculate_lead_time parser_parse bugs ≫= λ r, py_item r "count")
  ∧ (DORAMetrics.calculate_mttr parser_parse issues
     = Ok {[ "average_hours" := JInt 0; "average_days" := JInt 0; "count" := JInt 0 ]}
     ↔ DORAMetrics.calculate_lead_time parser_parse bugs
       = Ok {[ "average" := JInt 0; "median" := JInt 0; "min" := JInt 0;
               "max" := JInt 0; "count" := JInt 0 ]}).
Proof.
  intros Hrec bugs.
  pose proof (forallb_filter_records bug_record issues Hrec) as Hbugs.
  unfold DORAMetrics.calculate_mttr, DORAMetrics.calculate_lead_time.
  rewrite (comprehension_records _ bug_record) by auto using is_bug_record.
  simpl. fold bugs. rewrite !elapsed_loop_records by done. simpl.
  change (Z.mul 24 3600) with 86400%Z.
  pose proof (length_elapsed_units parser_parse bugs) as Hlen.
  destruct (omap (elapsed_of parser_parse 3600) bugs) as [|h hs],
    (omap (elapsed_of parser_parse 86400) bugs) as [|d ds]; try done.
  split.
  - cbn in Hlen. cbn. by rewrite Hlen.
  - split; intros H; apply (f_equal (λ m, m ≫= λ r, py_item r "count")) in H;
      cbn in H; by injection H.
Qed.

End MttrAndLeadTime.

(** The scenario: one timed bug. *)
Lemma mttr_counts_lead_time_of_bugs_witness :
  forallb issue_record scenario = true
  ∧ (DORAMetrics.calculate_mttr sample_parse scenario ≫= λ r, py_item r "count")
    = (DORAMetrics.calculate_lead_time sample_parse (List.filter bug_record scenario)
         ≫= λ r, py_item r "count").
Proof.
  assert (forallb issue_record scenario = true) as H by (by vm_compute).
  split; [exact H|].
  exact (proj1 (mttr_counts_lead_time_of_bugs sample_parse scenario H)).
Defined.

(** ** The order of the records *)

Lemma qsum_perm (l1 l2 : list Qc) : l1 ≡ₚ l2 → qsum l1 = qsum l2.
Proof.
  unfold qsum.
  induction 1 as [|x l1 l2 _ IH|x y l|l1 l2 l3 _ IH1 _ IH2]; cbn [foldr].
  - done.
  - by rewrite IH.
  - ring.
  - by rewrite IH1.
Qed.

Lemma mean_perm (l1 l2 : list Qc) : l1 ≡ₚ l2 → mean l1 = mean l2.
Proof.
  intros H. unfold mean. by rewrite (qsum_perm _ _ H), (Permutation_length H).
Qed.

Lemma py_min_perm (l1 l2 : list Qc) : l1 ≡ₚ l2 → py_min l1 = py_min l2.
Proof.
  intros H.
  destruct l1 as [|a l1], l2 as [|b l2];
    [ done | by apply Permutation_nil_cons in H
    | symmetry in H; by apply Permutation_nil_cons in H | ].
  unfold py_min.
  pose proof (fold_left_qmin_le l1 a) as Hle1.
  pose proof (fold_left_qmin_le l2 b) as Hle2.
  pose proof (fold_left_qmin_elem l1 a) as Hin1.
  pose proof (fold_left_qmin_elem l2 b) as Hin2.
  rewrite Forall_forall in Hle1, Hle2.
  apply Qcle_antisym.
  - apply Hle1. by rewrite H.
  - apply Hle2. by rewrite <- H.
Qed.

Lemma py_max_perm (l1 l2 : list Qc) : l1 ≡ₚ l2 → py_max l1 = py_max l2.
Proof.
  intros H.
  destruct l1 as [|a l1], l2 as [|b l2];
    [ done | by apply Permutation_nil_cons in H
    | symmetry in H; by apply Permutation_nil_cons in H | ].
  unfold py_max.
  pose proof (fold_left_qmax_ge l1 a) as Hge1.
  pose proof (fold_left_qmax_ge l2 b) as Hge2.
  pose proof (fold_left_qmax_elem l1 a) as Hin1.
  pose proof (fold_left_qmax_elem l2 b) as Hin2.
  rewrite Forall_forall in Hge1, Hge2.
  apply Qcle_antisym.
  - apply Hge2. by rewrite <- H.
  - apply Hge1. by rewrite H.
Qed.

Lemma median_perm (l1 l2 : list Qc) : l1 ≡ₚ l2 → median l1 = median l2.
Proof.
  intros H. unfold median.
  assert (merge_sort Qcle l1 = merge_sort Qcle l2) as ->; [|done].
  apply (StronglySorted_unique Qcle); try apply StronglySorted_merge_sort; try apply _.
  by rewrite !merge_sort_Permutation.
Qed.

Lemma list_filter_perm {A : Type} (p : A → bool) (l1 l2 : list A) :
  l1 ≡ₚ l2 → List.filter p l1 ≡ₚ List.filter p l2.
Proof.
  induction 1 as [|x l1 l2 _ IH|x y l|l1 l2 l3 _ IH1 _ IH2]; simpl.
  - done.
  - destruct (p x); by rewrite IH.
  - destruct (p x), (p y); try done. apply perm_swap.
  - by etrans.
Qed.

Lemma forallb_perm {A : Type} (p : A → bool) (l1 l2 : list A) :
  l1 ≡ₚ l2 → forallb p l1 = forallb p l2.
Proof.
  induction 1 as [|x l1 l2 _ IH|x y l|l1 l2 l3 _ IH1 _ IH2]; simpl.
  - done.
  - by rewrite IH.
  - by destruct (p x), (p y).
  - by etrans.
Qed.

Section RecordOrder.

Variable parser_parse : string → option datetime.

(** X8.  The order of the records does not matter: on issue records, each
    of the four calculators returns the same result for any rearrangement
    of the input sequence. *)
Theorem calculators_ignore_order (issues1 issues2 : list json) :
  issues1 ≡ₚ issues2 →
  forallb issue_record issues1 = true →
  DORAMetrics.calculate_lead_time parser_parse issues1
  = DORAMetrics.calculate_lead_time parser_parse issues2
  ∧ DORAMetrics.calculate_deployment_frequency parser_parse issues1
    = DORAMetrics.calculate_deployment_frequency parser_parse issues2
  ∧ DORAMetrics.calculate_mttr parser_parse issues1
    = DORAMetrics.calculate_mttr parser_parse issues2
  ∧ DORAMetrics.calculate_change_failure_rate issues1
    = DORAMetrics.calculate_change_failure_rate issues2.
Proof.
  intros Hperm Hrec1.
  assert (forallb issue_record issues2 = true) as Hrec2
    by by rewrite <- (forallb_perm _ _ _ Hperm).
  pose proof (list_filter_perm bug_record _ _ Hperm) as Hbugs.
  split; [|split; [|split]].
  - unfold DORAMetrics.calculate_lead_time.
    rewrite !elapsed_loop_records by done. simpl.
    pose proof (omap_Permutation (elapsed_of parser_parse (24 * 3600)) _ _ Hperm) as Hts.
    destruct (omap _ issues1) as [|t1 ts1], (omap _ issues2) as [|t2 ts2];
      [ done | by apply Permutation_nil_cons in Hts
      | symmetry in Hts; by apply Permutation_nil_cons in Hts | ].
    by rewrite (mean_perm _ _ Hts), (median_perm _ _ Hts), (py_min_perm _ _ Hts),
      (py_max_perm _ _ Hts), (Permutation_length Hts).
  - unfold DORAMetrics.calculate_deployment_frequency.
    rewrite !resolution_loop_records by done. simpl.
    pose proof (omap_Permutation (resolved_day parser_parse) _ _ Hperm) as Hds.
    destruct (omap _ issues1) as [|d1 ds1], (omap _ issues2) as [|d2 ds2];
      [ done | by apply Permutation_nil_cons in Hds
      | symmetry in Hds; by apply Permutation_nil_cons in Hds | ].
    by rewrite (list_to_set_perm_L (C:=gset Z) _ _ Hds).
  - unfold DORAMetrics.calculate_mttr.
    rewrite !(comprehension_records _ bug_record) by auto using is_bug_record.
    simpl. rewrite !elapsed_loop_records by by apply forallb_filter_records.
    simpl.
    pose proof (omap_Permutation (elapsed_of parser_parse 3600) _ _ Hbugs) as Hts.
    destruct (omap _ (List.filter _ issues1)) as [|t1 ts1],
      (omap _ (List.filter _ issues2)) as [|t2 ts2];
      [ done | by apply Permutation_nil_cons in Hts
      | symmetry in Hts; by apply Permutation_nil_cons in Hts | ].
    by rewrite (mean_perm _ _ Hts), (Permutation_length Hts).
  - unfold DORAMetrics.calculate_change_failure_rate.
    rewrite !(comprehension_records _ bug_record) by auto using is_bug_record.
    simpl.
    rewrite !(comprehension_records _ critical_record)
      by auto using is_critical_record, forallb_filter_records.
    simpl.
    by rewrite (Permutation_length Hperm), (Permutation_length Hbugs),
      (Permutation_length (list_filter_perm critical_record _ _ Hbugs)).
Qed.

End RecordOrder.

(** The scenario read backwards. *)
Lemma calculators_ignore_order_witness :
  scenario ≡ₚ reverse scenario
  ∧ forallb issue_record scenario = true
  ∧ DORAMetrics.calculate_lead_time sample_parse scenario
    = DORAMetrics.calculate_lead_time sample_parse (reverse scenario).
Proof.
  assert (scenario ≡ₚ reverse scenario) as H1 by (symmetry; apply reverse_Permutation).
  assert (forallb issue_record scenario = true) as H2 by (by vm_compute).
  split; [exact H1|]. split; [exact H2|].
  exact (proj1 (calculators_ignore_order sample_parse _ _ H1 H2)).
Defined.

(** ** The aggregator on issue records *)

Lemma classify_known_tier (metric : string) (v : Qc) :
  metric ∈ spec_table.*1 → DORAMetrics.get_performance_level metric v ∈ tiers.
Proof.
  intros [->|[->|[->| ->]]]%in_spec_table_cases;
    erewrite get_performance_level_row by reflexivity;
    apply first_satisfied_tier.
Qed.

Lemma classify_deployments_cases (v : Qc) :
  DORAMetrics.get_performance_level "deployments_per_week" v
  = if bool_decide (v ≤ qz 7) then "Elite" else "Low".
Proof.
  rewrite (get_performance_level_row _ (qz 7) (qz 1) (qfrac 2 10)) by reflexivity.
  cbn.
  assert (qz 1 ≤ qz 7) as H17 by (by vm_compute).
  assert (qfrac 2 10 ≤ qz 7) as H27 by (by vm_compute).
  repeat case_bool_decide; try done; exfalso; unfold Qcle, Qclt in *; lra.
Qed.

Section AggregatorOnRecords.

Variable parser_parse : string → option datetime.

Lemma lead_time_headline (issues : list json) :
  forallb issue_record issues = true →
  ∃ lt v, DORAMetrics.calculate_lead_time parser_parse issues = Ok lt
    ∧ entry lt "average" = Ok v.
Proof.
  intros Hrec. unfold DORAMetrics.calculate_lead_time.
  rewrite elapsed_loop_records by done. simpl.
  destruct (omap _ issues); do 2 eexists; (split; [reflexivity|done]).
Qed.

Lemma deployment_headline (issues : list json) :
  forallb issue_record issues = true →
  ∃ df v, DORAMetrics.calculate_deployment_frequency parser_parse issues = Ok df
    ∧ entry df "deployments_per_week" = Ok v.
Proof.
  intros Hrec. unfold DORAMetrics.calculate_deployment_frequency.
  rewrite resolution_loop_records by done. simpl.
  destruct (omap _ issues); do 2 eexists; (split; [reflexivity|done]).
Qed.

Lemma mttr_headline (issues : list json) :
  forallb issue_record issues = true →
  ∃ mt v, DORAMetrics.calculate_mttr parser_parse issues = Ok mt
    ∧ entry mt "average_hours" = Ok v.
Proof.
  intros Hrec. unfold DORAMetrics.calculate_mttr.
  rewrite (comprehension_records _ bug_record) by auto using is_bug_record.
  simpl. rewrite elapsed_loop_records by by apply forallb_filter_records.
  simpl. destruct (omap _ _); do 2 eexists; (split; [reflexivity|done]).
Qed.

Lemma failure_rate_headline (issues : list json) :
  forallb issue_record issues = true →
  ∃ cf v, DORAMetrics.calculate_change_failure_rate issues = Ok cf
    ∧ entry cf "failure_rate_percent" = Ok v.
Proof.
  intros Hrec. unfold DORAMetrics.calculate_change_failure_rate.
  rewrite (comprehension_records _ bug_record) by auto using is_bug_record.
  simpl.
  rewrite (comprehension_records _ critical_record)
    by auto using is_critical_record, forallb_filter_records.
  simpl. destruct (0 <? length issues)%nat;
    do 2 eexists; (split; [reflexivity|done]).
Qed.

(** The aggregator on a non-empty sequence of issue records, in full. *)
Lemma analyze_on_records (issues : list json) (now : string) :
  issues ≠ [] →
  forallb issue_record issues = true →
  ∃ (lt df mt cf : pydict) (v1 v2 v3 v4 : Qc),
    DORAMetrics.calculate_lead_time parser_parse issues = Ok lt
    ∧ DORAMetrics.calculate_deployment_frequency parser_parse issues = Ok df
    ∧ DORAMetrics.calculate_mttr parser_parse issues = Ok mt
    ∧ DORAMetrics.calculate_change_failure_rate issues = Ok cf
    ∧ entry lt "average" = Ok v1
    ∧ entry df "deployments_per_week" = Ok v2
    ∧ entry mt "average_hours" = Ok v3
    ∧ entry cf "failure_rate_percent" = Ok v4
    ∧ DORAMetrics.analyze_dora_metrics parser_parse issues now
      = Ok {[ "lead_time" :=
                JDict (<["performance_level" :=
                           JStr (DORAMetrics.get_performance_level "lead_time_days" v1)]> lt);
              "deployment_frequency" :=
                JDict (<["performance_level" :=
                           JStr (DORAMetrics.get_performance_level
                                   "deployments_per_week" v2)]> df);
              "mttr" :=
                JDict (<["performance_level" :=
                           JStr (DORAMetrics.get_performance_level "mttr_hours" v3)]> mt);
              "change_failure_rate" :=
                JDict (<["performance_level" :=
                           JStr (DORAMetrics.get_performance_level "failure_rate" v4)]> cf);
              "analysis_date" := JStr now;
              "total_issues_analyzed" := JInt (Z.of_nat (length issues));
              "data_source" := JStr "Real JIRA Data (MCP)" ]}.
Proof.
  intros Hne Hrec.
  destruct (lead_time_headline issues Hrec) as (lt & v1 & Hlt & Hv1).
  destruct (deployment_headline issues Hrec) as (df & v2 & Hdf & Hv2).
  destruct (mttr_headline issues Hrec) as (mt & v3 & Hmt & Hv3).
  destruct (failure_rate_headline issues Hrec) as (cf & v4 & Hcf & Hv4).
  exists lt, df, mt, cf, v1, v2, v3, v4.
  do 8 (split; [assumption|]).
  unfold DORAMetrics.analyze_dora_metrics.
  destruct issues as [|r issues]; [done|].
  rewrite Hlt, Hdf, Hmt, Hcf. unfold entry in *.
  cbn -[insert singletonM length]. rewrite Hv1.
  cbn -[insert singletonM length]. rewrite Hv2.
  cbn -[insert singletonM length]. rewrite Hv3.
  cbn -[insert singletonM length]. rewrite Hv4.
  reflexivity.
Qed.

(** X9.  On a non-empty sequence of issue records the aggregator returns a
    result: each of the four summaries is the calculator's result extended
    with a [performance_level] that is one of Elite, High, Medium, Low
    (never Unknown), [total_issues_analyzed] is the number of records and
    [analysis_date] the given clock reading. *)
Theorem analyze_returns_rated_summaries (issues : list json) (now : string) :
  issues ≠ [] →
  forallb issue_record issues = true →
  ∃ (m lt df mt cf : pydict) (l1 l2 l3 l4 : string),
    DORAMetrics.analyze_dora_metrics parser_parse issues now = Ok m
    ∧ DORAMetrics.calculate_lead_time parser_parse issues = Ok lt
    ∧ DORAMetrics.calculate_deployment_frequency parser_parse issues = Ok df
    ∧ DORAMetrics.calculate_mttr parser_parse issues = Ok mt
    ∧ DORAMetrics.calculate_change_failure_rate issues = Ok cf
    ∧ m !! "lead_time" = Some (JDict (<["performance_level" := JStr l1]> lt))
    ∧ m !! "deployment_frequency" = Some (JDict (<["performance_level" := JStr l2]> df))
    ∧ m !! "mttr" = Some (JDict (<["performance_level" := JStr l3]> mt))
    ∧ m !! "change_failure_rate" = Some (JDict (<["performance_level" := JStr l4]> cf))
    ∧ m !! "total_issues_analyzed" = Some (JInt (Z.of_nat (length issues)))
    ∧ m !! "analysis_date" = Some (JStr now)
    ∧ Forall (λ l, l ∈ tiers) [l1; l2; l3; l4].
Proof.
  intros Hne Hrec.
  destruct (analyze_on_records issues now Hne Hrec)
    as (lt & df & mt & cf & v1 & v2 & v3 & v4
        & Hlt & Hdf & Hmt & Hcf & _ & _ & _ & _ & Hm).
  eexists _, lt, df, mt, cf, _, _, _, _.
  split; [exact Hm|]. do 4 (split; [assumption|]).
  do 6 (split; [done|]).
  rewrite !Forall_cons, Forall_nil.
  repeat split; apply classify_known_tier; cbn; rewrite !elem_of_cons; auto.
Qed.

Lemma elapsed_none_of_unresolved (unit : Z) (issues : list json) :
  Forall (λ r, resolved_day parser_parse r = None) issues →
  omap (elapsed_of parser_parse unit) issues = [].
Proof.
  intros H. apply omap_all_none.
  eapply Forall_impl; [exact H|]. intros r. apply unresolved_not_elapsed.
Qed.

(** X10.  A non-empty sequence of issue records none of which has a
    parseable resolved timestamp is rated Elite on lead time, on
    deployment frequency and on MTTR: the zeros of the empty results pass
    every [<=] check. *)
Theorem unresolved_project_rated_elite (issues : list json) (now : string) :
  issues ≠ [] →
  forallb issue_record issues = true →
  Forall (λ r, resolved_day parser_parse r = None) issues →
  ∃ m, DORAMetrics.analyze_dora_metrics parser_parse issues now = Ok m
    ∧ (py_item m "lead_time" ≫= λ s, py_getitem s "performance_level")
      = Ok (JStr "Elite")
    ∧ (py_item m "deployment_frequency" ≫= λ s, py_getitem s "performance_level")
      = Ok (JStr "Elite")
    ∧ (py_item m "mttr" ≫= λ s, py_getitem s "performance_level")
      = Ok (JStr "Elite").
Proof.
  intros Hne Hrec Hopen.
  destruct (analyze_on_records issues now Hne Hrec)
    as (lt & df & mt & cf & v1 & v2 & v3 & v4
        & Hlt & Hdf & Hmt & Hcf & Hv1 & Hv2 & Hv3 & _ & Hm).
  eexists. split; [exact Hm|].
  unfold DORAMetrics.calculate_lead_time in Hlt.
  unfold DORAMetrics.calculate_deployment_frequency in Hdf.
  unfold DORAMetrics.calculate_mttr in Hmt.
  rewrite (comprehension_records _ bug_record) in Hmt by auto using is_bug_record.
  simpl in Hmt.
  rewrite elapsed_loop_records in Hlt, Hmt by auto using forallb_filter_records.
  rewrite resolution_loop_records in Hdf by done.
  simpl in Hlt, Hdf, Hmt.
  rewrite elapsed_none_of_unresolved in Hlt, Hmt by auto using Forall_list_filter.
  rewrite omap_all_none in Hdf by done.
  injection Hlt as <-. injection Hdf as <-. injection Hmt as <-.
  injection Hv1 as <-. injection Hv2 as <-. injection Hv3 as <-.
  by repeat split.
Qed.

End AggregatorOnRecords.

(** The scenario under the aggregator. *)
Lemma analyze_returns_rated_summaries_witness :
  scenario ≠ [] ∧ forallb issue_record scenario = true
  ∧ ∃ m, DORAMetrics.analyze_dora_metrics sample_parse scenario "2024-02-01 09:00:00" = Ok m
      ∧ m !! "total_issues_analyzed" = Some (JInt 5).
Proof.
  assert (scenario ≠ []) as H1 by done.
  assert (forallb issue_record scenario = true) as H2 by (by vm_compute).
  split; [exact H1|]. split; [exact H2|].
  destruct (analyze_returns_rated_summaries sample_parse scenario
              "2024-02-01 09:00:00" H1 H2)
    as (m & lt & df & mt & cf & l1 & l2 & l3 & l4 & Hm & _ & _ & _ & _
        & _ & _ & _ & _ & Hn & _).
  exists m. by split.
Defined.

(** Two open issues. *)
Lemma unresolved_project_rated_elite_witness :
  let issues := [ nested_issue "P-1" "Bug" "High" t0101 None;
                  nested_issue "P-3" "Story" "Medium" t0101 None ] in
  issues ≠ [] ∧ forallb issue_record issues = true
  ∧ Forall (λ r, resolved_day sample_parse r = None) issues
  ∧ ∃ m, DORAMetrics.analyze_dora_metrics sample_parse issues "2024-02-01 09:00:00" = Ok m
      ∧ (py_item m "mttr" ≫= λ s, py_getitem s "performance_level") = Ok (JStr "Elite").
Proof.
  intros issues.
  assert (issues ≠ []) as H1 by done.
  assert (forallb issue_record issues = true) as H2 by (by vm_compute).
  assert (Forall (λ r, resolved_day sample_parse r = None) issues) as H3
    by (repeat constructor; by vm_compute).
  split; [exact H1|]. split; [exact H2|]. split; [exact H3|].
  destruct (unresolved_project_rated_elite sample_parse issues
              "2024-02-01 09:00:00" H1 H2 H3) as (m & Hm & _ & _ & Hmt).
  exists m. by split.
Defined.

(** ** Records that are not objects *)

Section NonObjects.

Variable parser_parse : string → option datetime.

Lemma py_get_errors (o : json) (key : string) (dflt : json) :
  attribute_errors_only (py_get o key dflt).
Proof. intros e. destruct o; simpl; congruence. Qed.

Lemma bind_errors {A B : Type} (m : result A) (k : A → result B) :
  attribute_errors_only m → (∀ a, attribute_errors_only (k a)) →
  attribute_errors_only (m ≫= k).
Proof.
  intros Hm Hk e. destruct m as [a|e']; simpl.
  - apply Hk.
  - intros [= <-]. by apply Hm.
Qed.

Lemma ret_errors {A : Type} (a : A) : attribute_errors_only (mret a : result A).
Proof. intros e. discriminate. Qed.

Lemma get_either_errors (issue : json) (key : string) :
  attribute_errors_only (DORAMetrics.get_either issue key).
Proof.
  unfold DORAMetrics.get_either.
  apply bind_errors; [apply py_get_errors|]. intros top.
  destruct (truthy top); [apply ret_errors|].
  apply bind_errors; [apply py_get_errors|]. intros. apply py_get_errors.
Qed.

Lemma is_bug_errors (issue : json) : attribute_errors_only (DORAMetrics.is_bug issue).
Proof.
  unfold DORAMetrics.is_bug.
  repeat (apply bind_errors; [apply py_get_errors|]; intros ?).
  destruct (py_eq_str _ _); [apply ret_errors|].
  repeat (apply bind_errors; [apply py_get_errors|]; intros ?).
  apply ret_errors.
Qed.

Lemma get_either_non_object (r : json) (key : string) :
  not_object r = true → DORAMetrics.get_either r key = Raise AttributeError.
Proof. by destruct r. Qed.

Lemma is_bug_non_object (r : json) :
  not_object r = true → DORAMetrics.is_bug r = Raise AttributeError.
Proof. by destruct r. Qed.

Lemma elapsed_loop_cons (unit : Z) (x : json) (rest : list json) (acc : list Qc) :
  DORAMetrics.elapsed_loop parser_parse unit (x :: rest) acc
  = DORAMetrics.get_either x "created" ≫= λ created,
    DORAMetrics.get_either x "resolutiondate" ≫= λ resolved,
    if truthy created && truthy resolved then
      match DORAMetrics.try_elapsed parser_parse unit created resolved with
      | Some t => DORAMetrics.elapsed_loop parser_parse unit rest (acc ++ [t])
      | None => DORAMetrics.elapsed_loop parser_parse unit rest acc
      end
    else DORAMetrics.elapsed_loop parser_parse unit rest acc.
Proof. reflexivity. Qed.

Lemma resolution_loop_cons (x : json) (rest : list json) (acc : list Z) :
  DORAMetrics.resolution_loop parser_parse (x :: rest) acc
  = DORAMetrics.get_either x "resolutiondate" ≫= λ resolved,
    if truthy resolved then
      match DORAMetrics.parse_arg parser_parse resolved with
      | Some d => DORAMetrics.resolution_loop parser_parse rest (acc ++ [dt_date d])
      | None => DORAMetrics.resolution_loop parser_parse rest acc
      end
    else DORAMetrics.resolution_loop parser_parse rest acc.
Proof. reflexivity. Qed.

Lemma comprehension_cons (cond : json → result bool) (x : json) (rest : list json) :
  DORAMetrics.comprehension cond (x :: rest)
  = cond x ≫= λ b, DORAMetrics.comprehension cond rest ≫= λ kept,
    mret (if (b : bool) then x :: kept else kept).
Proof. reflexivity. Qed.

Lemma elapsed_loop_non_object (unit : Z) (l1 l2 : list json) (r : json)
    (acc : list Qc) :
  not_object r = true →
  DORAMetrics.elapsed_loop parser_parse unit (l1 ++ r :: l2) acc
  = Raise AttributeError.
Proof.
  intros Hr. revert acc. induction l1 as [|x l1 IH]; intros acc.
  - rewrite app_nil_l, elapsed_loop_cons.
    rewrite (get_either_non_object r "created") by done. reflexivity.
  - rewrite <- app_comm_cons, elapsed_loop_cons.
    destruct (DORAMetrics.get_either x "created") as [c|e] eqn:Ec;
      [|by rewrite (get_either_errors _ _ _ Ec)].
    destruct (DORAMetrics.get_either x "resolutiondate") as [s|e] eqn:Es;
      [|by rewrite (get_either_errors _ _ _ Es)].
    cbn [mbind result_bind].
    destruct (truthy c && truthy s); [|apply IH].
    destruct (DORAMetrics.try_elapsed _ _ _ _); apply IH.
Qed.

Lemma resolution_loop_non_object (l1 l2 : list json) (r : json) (acc : list Z) :
  not_object r = true →
  DORAMetrics.resolution_loop parser_parse (l1 ++ r :: l2) acc
  = Raise AttributeError.
Proof.
  intros Hr. revert acc. induction l1 as [|x l1 IH]; intros acc.
  - rewrite app_nil_l, resolution_loop_cons.
    rewrite (get_either_non_object r "resolutiondate") by done. reflexivity.
  - rewrite <- app_comm_cons, resolution_loop_cons.
    destruct (DORAMetrics.get_either x "resolutiondate") as [s|e] eqn:Es;
      [|by rewrite (get_either_errors _ _ _ Es)].
    cbn [mbind result_bind].
    destruct (truthy s); [|apply IH].
    destruct (DORAMetrics.parse_arg _ _); apply IH.
Qed.

Lemma comprehension_bug_non_object (l1 l2 : list json) (r : json) :
  not_object r = true →
  DORAMetrics.comprehension DORAMetrics.is_bug (l1 ++ r :: l2)
  = Raise AttributeError.
Proof.
  intros Hr. induction l1 as [|x l1 IH].
  - rewrite app_nil_l, comprehension_cons. rewrite is_bug_non_object by done. reflexivity.
  - rewrite <- app_comm_cons, comprehension_cons.
    destruct (DORAMetrics.is_bug x) as [b|e] eqn:Eb;
      [|by rewrite (is_bug_errors _ _ Eb)].
    cbn [mbind result_bind]. by rewrite IH.
Qed.

(** X11.  A record that is not a JSON object, anywhere in the batch, makes
    each of the four calculators and the aggregator raise
    [AttributeError], whatever the other records are. *)
Theorem non_object_record_raises (l1 l2 : list json) (r : json) (now : string) :
  not_object r = true →
  DORAMetrics.calculate_lead_time parser_parse (l1 ++ r :: l2) = Raise AttributeError
  ∧ DORAMetrics.calculate_deployment_frequency parser_parse (l1 ++ r :: l2)
    = Raise AttributeError
  ∧ DORAMetrics.calculate_mttr parser_parse (l1 ++ r :: l2) = Raise AttributeError
  ∧ DORAMetrics.calculate_change_failure_rate (l1 ++ r :: l2) = Raise AttributeError
  ∧ DORAMetrics.analyze_dora_metrics parser_parse (l1 ++ r :: l2) now
    = Raise AttributeError.
Proof.
  intros Hr.
  assert (DORAMetrics.calculate_lead_time parser_parse (l1 ++ r :: l2)
          = Raise AttributeError) as Hlt.
  { unfold DORAMetrics.calculate_lead_time. by rewrite elapsed_loop_non_object. }
  split; [exact Hlt|]. split; [|split; [|split]].
  - unfold DORAMetrics.calculate_deployment_frequency.
    by rewrite resolution_loop_non_object.
  - unfold DORAMetrics.calculate_mttr. by rewrite comprehension_bug_non_object.
  - unfold DORAMetrics.calculate_change_failure_rate.
    by rewrite comprehension_bug_non_object.
  - unfold DORAMetrics.analyze_dora_metrics. cbv zeta. rewrite Hlt.
    destruct (l1 ++ r :: l2) eqn:E; [by destruct l1 | reflexivity].
Qed.

End NonObjects.

(** A string among the records of the scenario. *)
Lemma non_object_record_raises_witness :
  not_object (JStr "P-1") = true
  ∧ DORAMetrics.calculate_mttr sample_parse (scenario ++ JStr "P-1" :: scenario)
    = Raise AttributeError.
Proof.
  assert (not_object (JStr "P-1") = true) as H by done.
  split; [exact H|].
  exact (proj1 (proj2 (proj2
    (non_object_record_raises sample_parse scenario scenario (JStr "P-1") "" H)))).
Defined.

(** ** The report's advice on deployment frequency *)

Lemma level_lookup (m : pydict) (x : json) :
  py_getitem (JDict (<["performance_level" := x]> m)) "performance_level" = Ok x.
Proof. unfold py_getitem, py_item. by rewrite lookup_insert_eq. Qed.

Lemma summary_lookup (m : pydict) (x : json) (key : string) :
  key ≠ "performance_level" →
  py_getitem (JDict (<["performance_level" := x]> m)) key = py_item m key.
Proof. intros H. unfold py_getitem, py_item. by rewrite lookup_insert_ne. Qed.

Lemma recommendations_deployment (lt df mt cf : pydict) (l1 l2 l3 l4 : string) :
  ∃ lines,
    DORAMetrics.recommendations
      (JDict (<["performance_level" := JStr l1]> lt))
      (JDict (<["performance_level" := JStr l2]> df))
      (JDict (<["performance_level" := JStr l3]> mt))
      (JDict (<["performance_level" := JStr l4]> cf)) = Ok lines
    ∧ ("   • Increase deployment frequency to daily or multiple times per day" ∈ lines
       ↔ py_in_strs (JStr l2) ["Low"; "Medium"] = true).
Proof.
  unfold DORAMetrics.recommendations. rewrite !level_lookup.
  cbn [mbind result_bind mret result_ret].
  destruct (py_in_strs (JStr l1) _), (py_in_strs (JStr l2) _),
    (py_in_strs (JStr l3) _), (py_in_strs (JStr l4) _);
    eexists; (split; [reflexivity|]); cbn [app];
    rewrite ?elem_of_cons, ?elem_of_nil;
    (split; [intros H; repeat destruct H as [H|H]; try done; discriminate
            | intros H; try discriminate; auto 6]).
Qed.

Section Report.

Variable parser_parse : string → option datetime.

(** X12.  For the aggregator's result on a non-empty sequence of issue
    records, [print_report] prints the advice to increase the deployment
    frequency exactly when [deployments_per_week] exceeds 7, and the status
    text of that row is "Excellent" exactly when it is at most 7 (zero
    included) and "Needs Improvement" above 7. *)
Theorem deployment_advice_above_seven (issues : list json) (now : string) :
  issues ≠ [] →
  forallb issue_record issues = true →
  ∃ (m : pydict) (lt df mt cf level : json) (lines : list string) (v : Qc),
    DORAMetrics.analyze_dora_metrics parser_parse issues now = Ok m
    ∧ m !! "lead_time" = Some lt
    ∧ m !! "deployment_frequency" = Some df
    ∧ m !! "mttr" = Some mt
    ∧ m !! "change_failure_rate" = Some cf
    ∧ DORAMetrics.recommendations lt df mt cf = Ok lines
    ∧ (py_getitem df "deployments_per_week" ≫= py_number) = Ok v
    ∧ py_getitem df "performance_level" = Ok level
    ∧ ("   • Increase deployment frequency to daily or multiple times per day" ∈ lines
       ↔ qz 7 < v)
    ∧ (DORAMetrics.get_status_text level = "Excellent" ↔ v ≤ qz 7)
    ∧ (DORAMetrics.get_status_text level = "Needs Improvement" ↔ qz 7 < v).
Proof.
  intros Hne Hrec.
  destruct (analyze_on_records parser_parse issues now Hne Hrec)
    as (lt & df & mt & cf & v1 & v2 & v3 & v4
        & _ & _ & _ & _ & _ & Hv2 & _ & _ & Hm).
  set (l2 := DORAMetrics.get_performance_level "deployments_per_week" v2) in *.
  destruct (recommendations_deployment lt df mt cf
              (DORAMetrics.get_performance_level "lead_time_days" v1) l2
              (DORAMetrics.get_performance_level "mttr_hours" v3)
              (DORAMetrics.get_performance_level "failure_rate" v4))
    as (lines & Hlines & Hadvice).
  eexists _, _, _, _, _, (JStr l2), lines, v2.
  split; [exact Hm|]. do 4 (split; [done|]).
  split; [exact Hlines|].
  split; [by rewrite summary_lookup|].
  split; [apply level_lookup|].
  rewrite Hadvice. subst l2. rewrite classify_deployments_cases.
  unfold DORAMetrics.get_status_text.
  case_bool_decide as Hle; cbn.
  - repeat split; try done; intros; exfalso; unfold Qcle, Qclt in *; lra.
  - apply Qcnot_le_lt in Hle. repeat split; try done; intros; try discriminate;
      exfalso; unfold Qcle, Qclt in *; lra.
Qed.

End Report.

(** The scenario: two deployment days in ninety, 0.2 a week. *)
Lemma deployment_advice_above_seven_witness :
  scenario ≠ [] ∧ forallb issue_record scenario = true
  ∧ ∃ m, DORAMetrics.analyze_dora_metrics sample_parse scenario "2024-02-01 09:00:00" = Ok m.
Proof.
  assert (scenario ≠ []) as H1 by done.
  assert (forallb issue_record scenario = true) as H2 by (by vm_compute).
  split; [exact H1|]. split; [exact H2|].
  destruct (deployment_advice_above_seven sample_parse scenario
              "2024-02-01 09:00:00" H1 H2) as (m & ? & ? & ? & ? & ? & ? & ? & Hm & _).
  by exists m.
Defined.

(** ** The sample generator of [DORAMetricsIntegrated] *)

Section Generator.

Variable parser_parse : string → option datetime.
Variable strftime : Z → string.
Variable project_key : string.

Lemma timestamp_str_truthy (t : Z) :
  truthy (JStr (DORAMetricsIntegrated.timestamp_str strftime t)) = true.
Proof.
  unfold DORAMetricsIntegrated.timestamp_str. simpl.
  by destruct (String.substring _ _ _).
Qed.

Lemma generate_loop_imap (i : nat) (draws : list DORAMetricsIntegrated.draw)
    (acc : list json) :
  DORAMetricsIntegrated.generate_loop strftime project_key i draws acc
  = acc ++ imap (λ j d, DORAMetricsIntegrated.generate_issue strftime project_key
                          (i + j) d) draws.
Proof.
  revert i acc. induction draws as [|d draws IH]; intros i acc.
  - simpl. by rewrite app_nil_r.
  - cbn [DORAMetricsIntegrated.generate_loop]. rewrite IH, imap_cons, <- app_assoc.
    cbn [app]. rewrite Nat.add_0_r. do 2 f_equal.
    apply imap_ext. intros j x _. simpl. f_equal. lia.
Qed.

Lemma generate_issue_shape (i : nat) (d : DORAMetricsIntegrated.draw) :
  let issue := DORAMetricsIntegrated.generate_issue strftime project_key i d in
  issue_record issue = true ∧ nested_only issue = true
  ∧ top_value issue "key" = JStr (project_key +:+ "-" +:+ pretty (1000 + i)%nat)
  ∧ name_of (nested_value issue "issuetype")
    = JStr (DORAMetricsIntegrated.d_issue_type d)
  ∧ name_of (nested_value issue "priority")
    = JStr (DORAMetricsIntegrated.d_priority d)
  ∧ truthy (nested_value issue "resolutiondate")
    = existsb (String.eqb (DORAMetricsIntegrated.d_status d))
        ["Done"; "Discarded"; "Refined"].
Proof.
  unfold DORAMetricsIntegrated.generate_issue. cbv zeta.
  destruct (existsb _ _); cbn [fmap option_fmap option_map].
  - rewrite timestamp_str_truthy. repeat split; try reflexivity.
    apply timestamp_str_truthy.
  - repeat split; reflexivity.
Qed.

(** X13.  Whatever the random draws, the generator returns one record per
    round, each an issue record that carries its fields under [fields]
    only, keyed [<project_key>-<1000 + i>], with the drawn issue type and
    priority, and with a resolution date exactly when the drawn status is
    Done, Discarded or Refined. *)
Theorem generated_records_shape (draws : list DORAMetricsIntegrated.draw) :
  let issues :=
    DORAMetricsIntegrated.generate_sample_data_for_project strftime project_key draws in
  length issues = length draws
  ∧ forallb issue_record issues = true
  ∧ forallb nested_only issues = true
  ∧ ∀ i d, draws !! i = Some d →
      ∃ issue, issues !! i = Some issue
        ∧ top_value issue "key" = JStr (project_key +:+ "-" +:+ pretty (1000 + i)%nat)
        ∧ name_of (nested_value issue "issuetype")
          = JStr (DORAMetricsIntegrated.d_issue_type d)
        ∧ name_of (nested_value issue "priority")
          = JStr (DORAMetricsIntegrated.d_priority d)
        ∧ truthy (nested_value issue "resolutiondate")
          = existsb (String.eqb (DORAMetricsIntegrated.d_status d))
              ["Done"; "Discarded"; "Refined"].
Proof.
  cbv zeta. unfold DORAMetricsIntegrated.generate_sample_data_for_project.
  rewrite generate_loop_imap, app_nil_l.
  split; [apply length_imap|].
  assert (∀ p : json → bool,
            (∀ i d, p (DORAMetricsIntegrated.generate_issue strftime project_key i d)
                    = true) →
            forallb p (imap (λ j d, DORAMetricsIntegrated.generate_issue strftime
                                      project_key (0 + j) d) draws) = true) as Hall.
  { intros p Hp. apply forallb_forall. intros x Hx.
    apply list_elem_of_In, list_elem_of_lookup in Hx as [j Hj].
    rewrite list_lookup_imap in Hj.
    destruct (draws !! j) as [d|]; [|done]. injection Hj as <-. apply Hp. }
  split; [apply Hall; intros; apply generate_issue_shape|].
  split; [apply Hall; intros; apply generate_issue_shape|].
  intros i d Hd. eexists. rewrite list_lookup_imap, Hd.
  split; [reflexivity|]. apply (generate_issue_shape i d).
Qed.

End Generator.

Section GeneratedAnalysis.

Variable parser_parse : string → option datetime.
Variable strftime : Z → string.
Variable project_key : string.

Lemma integrated_calculators_nested (issues : list json) :
  forallb nested_only issues = true →
  DORAMetricsIntegrated.calculate_lead_time parser_parse issues
  = DORAMetrics.calculate_lead_time parser_parse issues
  ∧ DORAMetricsIntegrated.calculate_deployment_frequency parser_parse issues
    = DORAMetrics.calculate_deployment_frequency parser_parse issues
  ∧ DORAMetricsIntegrated.calculate_mttr parser_parse issues
    = DORAMetrics.calculate_mttr parser_parse issues
  ∧ DORAMetricsIntegrated.calculate_change_failure_rate issues
    = DORAMetrics.calculate_change_failure_rate issues.
Proof.
  intros H. split; [|split; [|split]]; symmetry.
  - unfold DORAMetrics.calculate_lead_time, DORAMetricsIntegrated.calculate_lead_time.
    by rewrite elapsed_loop_nested.
  - unfold DORAMetrics.calculate_deployment_frequency,
      DORAMetricsIntegrated.calculate_deployment_frequency.
    by rewrite resolution_loop_nested.
  - unfold DORAMetrics.calculate_mttr, DORAMetricsIntegrated.calculate_mttr.
    rewrite (comprehension_nested _ DORAMetricsIntegrated.is_bug)
      by auto using is_bug_nested.
    destruct (DORAMetricsIntegrated.comprehension _ issues) as [bugs|] eqn:E; [|done].
    simpl. rewrite elapsed_loop_nested; [done|].
    by eapply comprehension_keeps.
  - unfold DORAMetrics.calculate_change_failure_rate,
      DORAMetricsIntegrated.calculate_change_failure_rate.
    rewrite (comprehension_nested _ DORAMetricsIntegrated.is_bug)
      by auto using is_bug_nested.
    destruct (DORAMetricsIntegrated.comprehension _ issues) as [bugs|] eqn:E; [|done].
    simpl.
    rewrite (comprehension_nested _ DORAMetricsIntegrated.is_critical);
      [done | auto using is_critical_nested | by eapply comprehension_keeps].
Qed.

Lemma generated_records (draws : list DORAMetricsIntegrated.draw) :
  let issues :=
    DORAMetricsIntegrated.generate_sample_data_for_project strftime project_key draws in
  length issues = length draws
  ∧ forallb issue_record issues = true ∧ forallb nested_only issues = true.
Proof.
  cbv zeta. unfold DORAMetricsIntegrated.generate_sample_data_for_project.
  rewrite generate_loop_imap, app_nil_l.
  split; [apply length_imap|].
  split; apply forallb_forall; intros x Hx;
    apply list_elem_of_In, list_elem_of_lookup in Hx as [j Hj];
    rewrite list_lookup_imap in Hj;
    (destruct (draws !! j) as [d|]; [|done]); injection Hj as <-;
    apply generate_issue_shape.
Qed.

(** X14.  On the records it generates (at least one), the aggregator of
    [DORAMetricsIntegrated] returns a result, and it is the result the
    aggregator of [DORAMetrics] returns on the same records except for the
    [data_source] entry; [total_issues_analyzed] is the number of rounds
    drawn. *)
Theorem integrated_analysis_of_generated (draws : list DORAMetricsIntegrated.draw)
    (now : string) :
  draws ≠ [] →
  let issues :=
    DORAMetricsIntegrated.generate_sample_data_for_project strftime project_key draws in
  ∃ m1 m2 : pydict,
    DORAMetricsIntegrated.analyze_dora_metrics parser_parse strftime project_key draws now
    = Ok m1
    ∧ DORAMetrics.analyze_dora_metrics parser_parse issues now = Ok m2
    ∧ delete "data_source" m1 = delete "data_source" m2
    ∧ m1 !! "data_source" = Some (JStr "Real MCP Data")
    ∧ m2 !! "data_source" = Some (JStr "Real JIRA Data (MCP)")
    ∧ m1 !! "total_issues_analyzed" = Some (JInt (Z.of_nat (length draws))).
Proof.
  intros Hne issues.
  destruct (generated_records draws) as (Hlen & Hrec & Hnested). fold issues in Hlen, Hrec, Hnested.
  assert (issues ≠ []) as Hine.
  { intros E. rewrite E in Hlen. by destruct draws. }
  destruct (analyze_on_records parser_parse issues now Hine Hrec)
    as (lt & df & mt & cf & v1 & v2 & v3 & v4
        & Hlt & Hdf & Hmt & Hcf & Hv1 & Hv2 & Hv3 & Hv4 & Hm).
  destruct (integrated_calculators_nested issues Hnested) as (Elt & Edf & Emt & Ecf).
  eexists _, _. split; [|split; [exact Hm|]].
  - unfold DORAMetricsIntegrated.analyze_dora_metrics. cbv zeta. fold issues.
    rewrite Elt, Edf, Emt, Ecf, Hlt, Hdf, Hmt, Hcf. unfold entry in *.
    cbn -[insert singletonM length]. rewrite Hv1.
    cbn -[insert singletonM length]. rewrite Hv2.
    cbn -[insert singletonM length]. rewrite Hv3.
    cbn -[insert singletonM length]. rewrite Hv4.
    reflexivity.
  - split; [|split; [done|split; [done|]]].
    + rewrite !delete_insert_ne by done.
      by rewrite !delete_singleton_eq.
    + rewrite <- Hlen. done.
Qed.

End GeneratedAnalysis.

(** Two rounds: a finished bug and a story in progress. *)
Lemma integrated_analysis_of_generated_witness :
  sample_draws ≠ []
  ∧ ∃ m, DORAMetricsIntegrated.analyze_dora_metrics sample_parse sample_strftime
           "DEMO" sample_draws "2024-02-01 09:00:00" = Ok m
      ∧ m !! "total_issues_analyzed" = Some (JInt 2).
Proof.
  assert (sample_draws ≠ []) as H by done.
  split; [exact H|].
  destruct (integrated_analysis_of_generated sample_parse sample_strftime "DEMO"
              sample_draws "2024-02-01 09:00:00" H)
    as (m1 & m2 & Hm1 & _ & _ & _ & _ & Hn).
  exists m1. by split.
Defined.

(** ** Lead time and deployment days *)

Section DeploymentDays.

Variable parser_parse : string → option datetime.

Lemma elapsed_is_resolved (unit : Z) (r : json) :
  is_Some (elapsed_of parser_parse unit r) → is_Some (resolved_day parser_parse r).
Proof.
  intros [t Ht]. destruct (resolved_day parser_parse r) eqn:E; [by eexists|].
  by rewrite (unresolved_not_elapsed parser_parse unit r E) in Ht.
Qed.

Lemma resolved_days_of_timed (unit : Z) (issues : list json) :
  omap (elapsed_of parser_parse unit) issues ≠ [] →
  omap (resolved_day parser_parse) issues ≠ [].
Proof.
  induction issues as [|r issues IH]; [done|]. cbn.
  destruct (elapsed_of parser_parse unit r) as [t|] eqn:E.
  - destruct (elapsed_is_resolved unit r ltac:(by eexists)) as [d ->]. done.
  - intros H. destruct (resolved_day parser_parse r); [done|]. by apply IH.
Qed.

Lemma length_remove_dups_le (l : list Z) : (length (remove_dups l) ≤ length l)%nat.
Proof.
  induction l as [|x l IH]; [done|]. simpl.
  destruct (decide_rel _ _ _); simpl; lia.
Qed.

Lemma remove_dups_nonempty (l : list Z) : l ≠ [] → remove_dups l ≠ [].
Proof.
  intros Hne E. destruct l as [|x l]; [done|].
  assert (x ∈ remove_dups (x :: l)) as Hin by (apply elem_of_remove_dups; by left).
  rewrite E in Hin. by apply elem_of_nil in Hin.
Qed.

(** X15.  Whenever the lead time result has a positive count, the
    deployment frequency result is not the "No data" one: its
    [total_deployments] is at least 1 and at most the number of records,
    and its [frequency] text spells that number. *)
Theorem lead_time_implies_deployments (issues : list json) :
  forallb issue_record issues = true →
  ∃ (lt df : pydict) (timed : nat),
    DORAMetrics.calculate_lead_time parser_parse issues = Ok lt
    ∧ DORAMetrics.calculate_deployment_frequency parser_parse issues = Ok df
    ∧ lt !! "count" = Some (JInt (Z.of_nat timed))
    ∧ ((0 < timed)%nat →
       ∃ n : nat, df !! "total_deployments" = Some (JInt (Z.of_nat n))
         ∧ (1 ≤ n)%nat ∧ (n ≤ length issues)%nat
         ∧ df !! "frequency" = Some (JStr (pretty n +:+ " deployment days in 90 days"))).
Proof.
  intros Hrec.
  destruct (lead_time_returns parser_parse issues Hrec) as (lt & Hlt & Hcount).
  exists lt. unfold DORAMetrics.calculate_deployment_frequency.
  rewrite resolution_loop_records by done. simpl.
  destruct (omap (resolved_day parser_parse) issues) as [|d ds] eqn:E.
  - eexists _, _. split; [exact Hlt|]. split; [reflexivity|]. split; [exact Hcount|].
    intros Hpos. exfalso.
    apply (resolved_days_of_timed 86400 issues); [|done].
    intros E'. rewrite E' in Hpos. simpl in Hpos. lia.
  - eexists _, _. split; [exact Hlt|]. split; [reflexivity|]. split; [exact Hcount|].
    intros _. rewrite size_list_to_set_distinct.
    exists (length (remove_dups (d :: ds))).
    split; [done|]. split; [|split; [|done]].
    + pose proof (remove_dups_nonempty (d :: ds) ltac:(done)).
      destruct (remove_dups (d :: ds)); [done|simpl; lia].
    + etrans; [apply length_remove_dups_le|]. rewrite <- E. apply length_omap_le.
Qed.

(** X16.  A record whose created and resolved timestamps both parse, one
    with a UTC offset and the other without, is left out of lead time and
    MTTR without an error (the failed subtraction is swallowed), while its
    resolved date still counts as a deployment day. *)
Theorem mixed_awareness_record_dropped (r : json) (issues : list json)
    (c s : string) (dc ds : datetime) :
  issue_record r = true →
  forallb issue_record issues = true →
  normalized r "created" = JStr c →
  normalized r "resolutiondate" = JStr s → s ≠ "" →
  parser_parse c = Some dc → parser_parse s = Some ds →
  (dt_utcoffset dc = None ↔ dt_utcoffset ds ≠ None) →
  DORAMetrics.calculate_lead_time parser_parse (r :: issues)
  = DORAMetrics.calculate_lead_time parser_parse issues
  ∧ DORAMetrics.calculate_mttr parser_parse (r :: issues)
    = DORAMetrics.calculate_mttr parser_parse issues
  ∧ ∃ df, DORAMetrics.calculate_deployment_frequency parser_parse [r] = Ok df
      ∧ df !! "total_deployments" = Some (JInt 1).
Proof.
  intros Hr Hrec Hc Hs Hsne Hpc Hps Hmix.
  assert (∀ unit, elapsed_of parser_parse unit r = None) as Hnone.
  { intros unit. unfold elapsed_of, DORAMetrics.try_elapsed.
    rewrite Hc, Hs. simpl. rewrite Hpc, Hps. simpl.
    unfold dt_sub.
    destruct (dt_utcoffset dc), (dt_utcoffset ds); simpl;
      try (by destruct (_ && _)); exfalso.
    - by discriminate (proj2 Hmix ltac:(done)).
    - by apply (proj1 Hmix eq_refl). }
  assert (forallb issue_record (r :: issues) = true) as Hall
    by (cbn [forallb]; by rewrite Hr).
  split; [|split].
  - unfold DORAMetrics.calculate_lead_time.
    rewrite !elapsed_loop_records by done. cbn [omap list_omap].
    by rewrite Hnone.
  - unfold DORAMetrics.calculate_mttr.
    rewrite !(comprehension_records _ bug_record) by auto using is_bug_record.
    cbn [mbind result_bind List.filter].
    destruct (bug_record r); [|reflexivity].
    pose proof (forallb_filter_records bug_record issues Hrec) as Hbugs.
    assert (forallb issue_record (r :: List.filter bug_record issues) = true)
      as Hbugs' by (cbn [forallb]; by rewrite Hr).
    rewrite !elapsed_loop_records by done.
    cbn [omap list_omap]. rewrite Hnone. reflexivity.
  - unfold DORAMetrics.calculate_deployment_frequency.
    rewrite resolution_loop_records by (cbn [forallb]; by rewrite Hr).
    assert (resolved_day parser_parse r = Some (dt_date ds)) as Hday.
    { unfold resolved_day. rewrite Hs. simpl.
      apply String.eqb_neq in Hsne. rewrite Hsne. simpl. by rewrite Hps. }
    cbn [omap list_omap]. rewrite Hday.
    cbn [mbind result_bind app]. rewrite size_list_to_set_distinct.
    eexists. split; reflexivity.
Qed.

End DeploymentDays.

(** The scenario: four timed records on two days. *)
Lemma lead_time_implies_deployments_witness :
  forallb issue_record scenario = true
  ∧ ∃ lt df, DORAMetrics.calculate_lead_time sample_parse scenario = Ok lt
      ∧ DORAMetrics.calculate_deployment_frequency sample_parse scenario = Ok df.
Proof.
  assert (forallb issue_record scenario = true) as H by (by vm_compute).
  split; [exact H|].
  destruct (lead_time_implies_deployments sample_parse scenario H)
    as (lt & df & timed & Hlt & Hdf & _).
  by exists lt, df.
Defined.

(** Created with an offset, resolved without one. *)
Lemma mixed_awareness_record_dropped_witness :
  issue_record mixed_issue = true
  ∧ DORAMetrics.calculate_lead_time naive_parse (mixed_issue :: scenario)
    = DORAMetrics.calculate_lead_time naive_parse scenario.
Proof.
  assert (issue_record mixed_issue = true) as H1 by (by vm_compute).
  split; [exact H1|].
  refine (proj1 (mixed_awareness_record_dropped naive_parse mixed_issue scenario
                   t0101 "2024-01-03 00:00:00"
                   (utc_midnight 19723) (mkDatetime (19725 * us_per_day) None)
                   H1 _ _ _ _ _ _ _)); by vm_compute.
Defined.
